(** * Growth-mindset digital diary: the entry store and the form logic

    A shallow embedding of [app.py]: the JSON entry store
    ([load_entries], [save_entries]), the tag parser ([tags_list]), the
    entry built by the save button, and the sidebar filter
    ([filtered_entries]) with its newest-first display.

    Python values are embedded as follows.
    - [str]: [string]; a character is a code point below 256.  Text
      beyond that is a list of code points ([Unicode]).
    - [dict] with string keys: an association list in insertion order.
    - a raised exception: the [Raise] case of [result].
    - the files on disk: a function from paths to contents. *)

From Stdlib Require Import List Bool Ascii String ZArith Lia Arith.
From Stdlib Require Import DecimalString DecimalZ.
Import ListNotations.
Local Open Scope string_scope.
Local Open Scope list_scope.
Local Open Scope Z_scope.

(** ** Python string primitives *)

Module PyStr.

(** [str.isspace] on one character, as used by [str.strip] and by the
    regular-expression class [\s]: TAB..CR, FS..US, SPACE, NEL, NBSP. *)
Definition isspace (c : ascii) : bool :=
  let n := nat_of_ascii c in
  ((9 <=? n) && (n <=? 13) || (28 <=? n) && (n <=? 32)
   || (n =? 133) || (n =? 160))%nat.

Definition isdigit (c : ascii) : bool :=
  let n := nat_of_ascii c in ((48 <=? n) && (n <=? 57))%nat.

(** The letters that [str.lower] changes, among code points below 256:
    A..Z and the Latin-1 capitals (all of 192..222 but the sign 215). *)
Definition isupper (c : ascii) : bool :=
  let n := nat_of_ascii c in
  ((65 <=? n) && (n <=? 90)
   || (192 <=? n) && (n <=? 222) && negb (n =? 215))%nat.

Definition lower_char (c : ascii) : ascii :=
  if isupper c then ascii_of_nat (nat_of_ascii c + 32) else c.

(** [s.lower()] *)
Fixpoint lower (s : string) : string :=
  match s with
  | EmptyString => EmptyString
  | String c s' => String (lower_char c) (lower s')
  end.

(** [s.lstrip()] *)
Fixpoint lstrip (s : string) : string :=
  match s with
  | EmptyString => EmptyString
  | String c s' => if isspace c then lstrip s' else s
  end.

(** [s.rstrip()] *)
Fixpoint rstrip (s : string) : string :=
  match s with
  | EmptyString => EmptyString
  | String c s' =>
      match rstrip s' with
      | EmptyString => if isspace c then EmptyString else String c EmptyString
      | r => String c r
      end
  end.

(** [s.strip()] *)
Definition strip (s : string) : string := rstrip (lstrip s).

(** [s.split(sep)] for a separator of one character: the pieces between
    the separators, empty pieces included; never the empty list. *)
Fixpoint split (sep : ascii) (s : string) : list string :=
  match s with
  | EmptyString => [EmptyString]
  | String c s' =>
      if Ascii.eqb c sep then EmptyString :: split sep s'
      else match split sep s' with
           | p :: ps => String c p :: ps
           | [] => [String c EmptyString]
           end
  end.

(** [sep.join(pieces)] *)
Fixpoint join (sep : string) (pieces : list string) : string :=
  match pieces with
  | [] => EmptyString
  | [p] => p
  | p :: ps => p ++ sep ++ join sep ps
  end.

(** [q in t] on strings: [q] occurs in [t] as a contiguous run. *)
Fixpoint contains (t q : string) : bool :=
  if String.prefix q t then true
  else match t with
       | EmptyString => false
       | String _ t' => contains t' q
       end.

(** Truth value of a string: [bool(s)]. *)
Definition truthy (s : string) : bool :=
  match s with EmptyString => false | _ => true end.

End PyStr.

(** ** Tag parsing (line 86) *)

(** [[tag.strip() for tag in tags_input.split(",") if tag.strip()]] *)
Definition tags_list (tags_input : string) : list string :=
  map PyStr.strip
      (filter (fun tag => PyStr.truthy (PyStr.strip tag))
              (PyStr.split "," tags_input)).

(** ** JSON values and Python dictionaries *)

(** The values [json.load] builds and [json.dump] accepts: [None],
    [bool], [int], [str], [list] and [dict] with string keys.  (The
    application never creates a [float]; floating-point numbers are not
    part of the model.) *)
Unset Elimination Schemes.
Inductive json : Type :=
| JNull
| JBool (b : bool)
| JNum (n : Z)
| JStr (s : string)
| JArr (items : list json)
| JObj (members : list (string * json)).
Set Elimination Schemes.

(** Structural induction that reaches below arrays and objects. *)
Definition json_ind (P : json -> Prop)
    (Hnull : P JNull)
    (Hbool : forall b, P (JBool b))
    (Hnum : forall n, P (JNum n))
    (Hstr : forall s, P (JStr s))
    (Harr : forall items, Forall P items -> P (JArr items))
    (Hobj : forall members,
        Forall (fun kv => P (snd kv)) members -> P (JObj members)) :
  forall v, P v :=
  fix go (v : json) : P v :=
    match v with
    | JNull => Hnull
    | JBool b => Hbool b
    | JNum n => Hnum n
    | JStr s => Hstr s
    | JArr items =>
        Harr items
          ((fix all (l : list json) : Forall P l :=
              match l with
              | [] => Forall_nil _
              | x :: l' => Forall_cons x (go x) (all l')
              end) items)
    | JObj members =>
        Hobj members
          ((fix all (l : list (string * json)) :
              Forall (fun kv => P (snd kv)) l :=
              match l with
              | [] => Forall_nil _
              | kv :: l' => Forall_cons kv (go (snd kv)) (all l')
              end) members)
    end.

(** A Python [dict] keyed by strings, in insertion order. *)
Definition dict : Type := list (string * json).

(** [key in d] / [d.get(key)] with no default: the binding, if any. *)
Fixpoint dict_lookup (key : string) (d : dict) : option json :=
  match d with
  | [] => None
  | (k, v) :: d' => if String.eqb k key then Some v else dict_lookup key d'
  end.

(** [d.get(key, default)] *)
Definition dict_get (key : string) (default : json) (d : dict) : json :=
  match dict_lookup key d with
  | Some v => v
  | None => default
  end.

(** [d[key] = v]: overwrite in place, or append a new binding. *)
Fixpoint dict_set (key : string) (v : json) (d : dict) : dict :=
  match d with
  | [] => [(key, v)]
  | (k, v') :: d' =>
      if String.eqb k key then (k, v) :: d' else (k, v') :: dict_set key v d'
  end.

(** [d.setdefault(key, default)], for its effect on [d]: a binding is
    appended only when the key is absent. *)
Definition setdefault (key : string) (default : json) (d : dict) : dict :=
  match dict_lookup key d with
  | Some _ => d
  | None => d ++ [(key, default)]
  end.

(** [dict(pairs)]: later bindings of a key replace earlier ones. *)
Definition dict_of_pairs (pairs : list (string * json)) : dict :=
  fold_left (fun d kv => dict_set (fst kv) (snd kv) d) pairs [].

(** ** Exceptions *)

Inductive exn : Type :=
| KeyError
| AttributeError
| TypeError
| ValueError.

Inductive result (A : Type) : Type :=
| Ok (a : A)
| Raise (e : exn).
Arguments Ok {A} a.
Arguments Raise {A} e.

Definition bind {A B : Type} (r : result A) (k : A -> result B) : result B :=
  match r with
  | Ok a => k a
  | Raise e => Raise e
  end.

Notation "x <- r ;; k" := (bind r (fun x => k))
  (at level 61, r at next level, right associativity).

(** ** The JSON text format

    What [json.dump(obj, file, indent=4)] writes and [json.load(file)]
    reads, for the values of type [json].  Number literals with a
    fraction or an exponent, [NaN], [Infinity] and [\u] escapes above
    [00ff] denote values outside [json]; [loads] gives no result for
    them. *)

Module Json.

(** The double quote character. *)
Definition dquote : ascii := "034".

Definition hex_digit (n : nat) : ascii :=
  ascii_of_nat (if (n <? 10)%nat then 48 + n else 87 + n).

Definition hex_value (c : ascii) : option nat :=
  let n := nat_of_ascii c in
  if ((48 <=? n) && (n <=? 57))%nat then Some (n - 48)%nat
  else if ((97 <=? n) && (n <=? 102))%nat then Some (n - 87)%nat
  else if ((65 <=? n) && (n <=? 70))%nat then Some (n - 55)%nat
  else None.

(** One character of a string literal, as [json.dump] escapes it
    ([ensure_ascii] is on): everything outside SPACE..~ is escaped. *)
Definition escape_char (c : ascii) : string :=
  let n := nat_of_ascii c in
  if (n =? 34)%nat then String "\" (String dquote EmptyString)
  else if (n =? 92)%nat then "\\"
  else if (n =? 8)%nat then "\b"
  else if (n =? 9)%nat then "\t"
  else if (n =? 10)%nat then "\n"
  else if (n =? 12)%nat then "\f"
  else if (n =? 13)%nat then "\r"
  else if ((32 <=? n) && (n <=? 126))%nat then String c EmptyString
  else String "\" (String "u" (String "0" (String "0"
         (String (hex_digit (n / 16)) (String (hex_digit (n mod 16))
            EmptyString))))).

Fixpoint escape (s : string) : string :=
  match s with
  | EmptyString => EmptyString
  | String c s' => escape_char c ++ escape s'
  end.

Definition quote (s : string) : string :=
  String dquote (escape s ++ String dquote EmptyString).

Definition dumps_int (n : Z) : string :=
  DecimalString.NilZero.string_of_int (Z.to_int n).

Fixpoint spaces (n : nat) : string :=
  match n with
  | O => EmptyString
  | S n' => String " " (spaces n')
  end.

(** A line break followed by the indentation of nesting depth [level]. *)
Definition newline_indent (level : nat) : string :=
  String (ascii_of_nat 10) (spaces (4 * level)).

(** The text of [v] when it sits at nesting depth [level]. *)
Fixpoint dumps_at (level : nat) (v : json) : string :=
  match v with
  | JNull => "null"
  | JBool true => "true"
  | JBool false => "false"
  | JNum n => dumps_int n
  | JStr s => quote s
  | JArr [] => "[]"
  | JArr items =>
      "[" ++ newline_indent (S level)
          ++ PyStr.join ("," ++ newline_indent (S level))
               (map (dumps_at (S level)) items)
          ++ newline_indent level ++ "]"
  | JObj [] => "{}"
  | JObj members =>
      "{" ++ newline_indent (S level)
          ++ PyStr.join ("," ++ newline_indent (S level))
               (map (fun kv => (quote (fst kv) ++ ": "
                                  ++ dumps_at (S level) (snd kv))%string)
                    members)
          ++ newline_indent level ++ "}"
  end.

(** [json.dumps(v, indent=4)] *)
Definition dumps (v : json) : string := dumps_at 0 v.

(** *** Reading *)

(** JSON white space: SPACE, TAB, LF, CR. *)
Definition is_ws (c : ascii) : bool :=
  let n := nat_of_ascii c in
  ((n =? 32) || (n =? 9) || (n =? 10) || (n =? 13))%nat.

Fixpoint skip_ws (s : string) : string :=
  match s with
  | EmptyString => EmptyString
  | String c s' => if is_ws c then skip_ws s' else s
  end.

(** [s] without its prefix [p], when it has that prefix. *)
Fixpoint after_prefix (p s : string) : option string :=
  match p with
  | EmptyString => Some s
  | String a p' =>
      match s with
      | EmptyString => None
      | String b s' => if Ascii.eqb a b then after_prefix p' s' else None
      end
  end.

(** The character a one-letter escape stands for. *)
Definition unescape (e : ascii) : option ascii :=
  let n := nat_of_ascii e in
  if (n =? 34)%nat then Some dquote
  else if (n =? 92)%nat then Some "\"%char
  else if (n =? 47)%nat then Some "/"%char
  else if (n =? 98)%nat then Some (ascii_of_nat 8)
  else if (n =? 102)%nat then Some (ascii_of_nat 12)
  else if (n =? 110)%nat then Some (ascii_of_nat 10)
  else if (n =? 114)%nat then Some (ascii_of_nat 13)
  else if (n =? 116)%nat then Some (ascii_of_nat 9)
  else None.

Definition hex4 (a b c d : ascii) : option nat :=
  match hex_value a, hex_value b, hex_value c, hex_value d with
  | Some x, Some y, Some z, Some w =>
      Some (((x * 16 + y) * 16 + z) * 16 + w)%nat
  | _, _, _, _ => None
  end.

Definition cons_char (c : ascii) (r : option (string * string)) :
  option (string * string) :=
  match r with
  | Some (s, rest) => Some (String c s, rest)
  | None => None
  end.

(** The body of a string literal, from just after its opening quote up
    to its closing quote: the decoded string and the text that follows.
    Control characters must be escaped (strict mode). *)
Fixpoint scan_string (s : string) : option (string * string) :=
  match s with
  | EmptyString => None
  | String c s' =>
      if Ascii.eqb c dquote then Some (EmptyString, s')
      else if Ascii.eqb c "\" then
        match s' with
        | EmptyString => None
        | String e s'' =>
            if Ascii.eqb e "u" then
              match s'' with
              | String h1 (String h2 (String h3 (String h4 s4))) =>
                  match hex4 h1 h2 h3 h4 with
                  | Some n =>
                      if (n <? 256)%nat
                      then cons_char (ascii_of_nat n) (scan_string s4)
                      else None
                  | None => None
                  end
              | _ => None
              end
            else
              match unescape e with
              | Some ch => cons_char ch (scan_string s'')
              | None => None
              end
        end
      else if (nat_of_ascii c <? 32)%nat then None
      else cons_char c (scan_string s')
  end.

(** The longest run of decimal digits at the front of [s]. *)
Fixpoint span_digits (s : string) : string * string :=
  match s with
  | EmptyString => (EmptyString, EmptyString)
  | String c s' =>
      if PyStr.isdigit c
      then let (ds, rest) := span_digits s' in (String c ds, rest)
      else (EmptyString, s)
  end.

(** A digit, or a digit other than zero followed by more digits. *)
Definition scan_nat (s : string) : option (Z * string) :=
  match s with
  | EmptyString => None
  | String c r =>
      if Ascii.eqb c "0" then Some (0, r)
      else if PyStr.isdigit c then
        let (ds, rest) := span_digits s in
        match NilEmpty.uint_of_string ds with
        | Some u => Some (Z.of_uint u, rest)
        | None => None
        end
      else None
  end.

(** Where a number literal would go on as a floating-point one. *)
Definition starts_fraction (s : string) : bool :=
  match s with
  | EmptyString => false
  | String c _ => Ascii.eqb c "." || Ascii.eqb c "e" || Ascii.eqb c "E"
  end.

(** An integer literal.  A literal that goes on with a fraction or an
    exponent is a [float], outside [json]; a literal followed by a bare
    ".", "e" or "E" is malformed. *)
Definition scan_int (s : string) : option (Z * string) :=
  let r :=
    match s with
    | String c s' =>
        if Ascii.eqb c "-"
        then match scan_nat s' with
             | Some (n, rest) => Some (- n, rest)
             | None => None
             end
        else scan_nat s
    | EmptyString => None
    end in
  match r with
  | Some (n, rest) => if starts_fraction rest then None else Some (n, rest)
  | None => None
  end.

(** A value starting at the front of [s], and the text after it.  The
    recursion is bounded by [fuel]; [loads] supplies enough of it. *)
Fixpoint scan_value (fuel : nat) (s : string) : option (json * string) :=
  match fuel with
  | O => None
  | S fuel' =>
      match s with
      | EmptyString => None
      | String c r =>
          if Ascii.eqb c dquote then
            match scan_string r with
            | Some (str, rest) => Some (JStr str, rest)
            | None => None
            end
          else if Ascii.eqb c "{" then
            match skip_ws r with
            | EmptyString => None
            | String c1 r1 as body =>
                if Ascii.eqb c1 "}" then Some (JObj [], r1)
                else match scan_members fuel' body with
                     | Some (pairs, rest) =>
                         Some (JObj (dict_of_pairs pairs), rest)
                     | None => None
                     end
            end
          else if Ascii.eqb c "[" then
            match skip_ws r with
            | EmptyString => None
            | String c1 r1 as body =>
                if Ascii.eqb c1 "]" then Some (JArr [], r1)
                else match scan_items fuel' body with
                     | Some (items, rest) => Some (JArr items, rest)
                     | None => None
                     end
            end
          else if Ascii.eqb c "n" then
            option_map (pair JNull) (after_prefix "ull" r)
          else if Ascii.eqb c "t" then
            option_map (pair (JBool true)) (after_prefix "rue" r)
          else if Ascii.eqb c "f" then
            option_map (pair (JBool false)) (after_prefix "alse" r)
          else
            match scan_int s with
            | Some (n, rest) => Some (JNum n, rest)
            | None => None
            end
      end
  end

(** The items of an array, from its first item through the closing
    bracket. *)
with scan_items (fuel : nat) (s : string) : option (list json * string) :=
  match fuel with
  | O => None
  | S fuel' =>
      match scan_value fuel' s with
      | None => None
      | Some (v, r) =>
          match skip_ws r with
          | EmptyString => None
          | String c r1 =>
              if Ascii.eqb c "," then
                match scan_items fuel' (skip_ws r1) with
                | Some (vs, rest) => Some (v :: vs, rest)
                | None => None
                end
              else if Ascii.eqb c "]" then Some ([v], r1)
              else None
          end
      end
  end

(** The members of an object, from its first key through the closing
    brace. *)
with scan_members (fuel : nat) (s : string) :
  option (list (string * json) * string) :=
  match fuel with
  | O => None
  | S fuel' =>
      match s with
      | EmptyString => None
      | String q r =>
          if negb (Ascii.eqb q dquote) then None
          else
            match scan_string r with
            | None => None
            | Some (key, r1) =>
                match skip_ws r1 with
                | EmptyString => None
                | String c r2 =>
                    if negb (Ascii.eqb c ":") then None
                    else
                      match scan_value fuel' (skip_ws r2) with
                      | None => None
                      | Some (v, r3) =>
                          match skip_ws r3 with
                          | EmptyString => None
                          | String c' r4 =>
                              if Ascii.eqb c' "," then
                                match scan_members fuel' (skip_ws r4) with
                                | Some (ms, rest) =>
                                    Some ((key, v) :: ms, rest)
                                | None => None
                                end
                              else if Ascii.eqb c' "}"
                              then Some ([(key, v)], r4)
                              else None
                          end
                      end
                end
            end
      end
  end.

(** [json.loads(s)]: one value, with white space allowed around it;
    [None] stands for [json.JSONDecodeError]. *)
Definition loads (s : string) : option json :=
  match scan_value (2 * String.length s + 2) (skip_ws s) with
  | Some (v, rest) =>
      match skip_ws rest with
      | EmptyString => Some v
      | String _ _ => None
      end
  | None => None
  end.

(** *** Vocabulary for the round trip *)

(** What may follow a value inside the text [dumps] writes: nothing, a
    comma or a line break. *)
Definition follows (rest : string) : bool :=
  match rest with
  | EmptyString => true
  | String c _ => Ascii.eqb c "," || Ascii.eqb c "010"
  end.

Definition head_nonzero (u : Decimal.uint) : Prop :=
  match u with
  | Decimal.Nil | Decimal.D0 _ => False
  | _ => True
  end.

Fixpoint distinct (keys : list string) : bool :=
  match keys with
  | [] => true
  | k :: ks => negb (existsb (String.eqb k) ks) && distinct ks
  end.

(** A value in which no dictionary binds a key twice, as is the case of
    every Python value. *)
Fixpoint well_formed (v : json) : bool :=
  match v with
  | JArr items => forallb well_formed items
  | JObj members =>
      distinct (map fst members)
      && forallb (fun kv => well_formed (snd kv)) members
  | _ => true
  end.

(** The number of values in [v], a bound on the fuel reading it takes. *)
Fixpoint size (v : json) : nat :=
  match v with
  | JArr items => S (list_sum (map (fun x => S (size x)) items))
  | JObj members =>
      S (list_sum (map (fun kv => S (size (snd kv))) members))
  | _ => 1
  end.

Definition head_is (ok : ascii -> bool) (s : string) : Prop :=
  match s with
  | EmptyString => False
  | String c _ => ok c = true
  end.

(** The first character of a value: no white space, no closing bracket. *)
Definition value_head (c : ascii) : bool :=
  negb (is_ws c) && negb (Ascii.eqb c "]") && negb (Ascii.eqb c "}").

(** What comes after an item: the separator and the next item, or the
    line break before the closing bracket. *)
Definition items_sep (level : nat) : string :=
  ("," ++ newline_indent (S level))%string.

Definition items_text (level : nat) (items : list json) : string :=
  PyStr.join (items_sep level) (map (dumps_at (S level)) items).

Definition member_text (level : nat) (kv : string * json) : string :=
  (quote (fst kv) ++ ": " ++ dumps_at (S level) (snd kv))%string.

Definition members_text (level : nat) (members : list (string * json)) :
  string :=
  PyStr.join (items_sep level) (map (member_text level) members).

Definition reads_back (v : json) : Prop :=
  well_formed v = true ->
  forall level rest fuel,
    (size v <= fuel)%nat -> follows rest = true ->
    scan_value fuel (dumps_at level v ++ rest) = Some (v, rest).

End Json.

(** ** The files on disk *)

Definition filesystem : Type := string -> option string.

(** [open(path, "w").write(data)]: the file is created or overwritten. *)
Definition fs_write (path data : string) (fs : filesystem) : filesystem :=
  fun p => if String.eqb p path then Some data else fs p.

(** ** The entry store (lines 7-32) *)

Definition STORAGE_FILE : string := "diary_entries.json".

(** The four [setdefault] calls of the loop body, in their order. *)
Definition backfill (entry : dict) : dict :=
  setdefault "image" JNull
    (setdefault "username" (JStr "Unknown User")
       (setdefault "tags" (JArr [])
          (setdefault "title" (JStr "Untitled") entry))).

(** [for entry in entries: entry.setdefault(...)]: only a [dict] has a
    [setdefault] method, any other element raises [AttributeError]. *)
Fixpoint backfill_all (entries : list json) : result (list dict) :=
  match entries with
  | [] => Ok []
  | JObj entry :: rest =>
      let entry' := backfill entry in
      rest' <- backfill_all rest ;; Ok (entry' :: rest')
  | _ :: _ => Raise AttributeError
  end.

Section Store.

(** The two functions of the [json] library the store calls:
    [json_loads] is [json.load] on the text of the file, [None] standing
    for [json.JSONDecodeError]; [json_dumps] is the text
    [json.dump(..., indent=4)] writes. *)
Variable json_loads : string -> option json.
Variable json_dumps : json -> string.

Definition load_entries (fs : filesystem) : result (list dict) :=
  match fs STORAGE_FILE with
  | Some text =>
      match json_loads text with
      | Some (JArr entries) => backfill_all entries
      | Some _ => Ok []
      | None => Ok []
      end
  | None => Ok []
  end.

Definition save_entries (entries : list dict) (fs : filesystem) : filesystem :=
  fs_write STORAGE_FILE (json_dumps (JArr (map JObj entries))) fs.

End Store.

(** ** Calendar dates *)

Record date : Type := mkdate { year : Z; month : Z; day : Z }.

Definition is_leap (y : Z) : bool :=
  (y mod 4 =? 0) && (negb (y mod 100 =? 0) || (y mod 400 =? 0)).

Definition days_in_month (y m : Z) : Z :=
  if m =? 2 then (if is_leap y then 29 else 28)
  else if (m =? 4) || (m =? 6) || (m =? 9) || (m =? 11) then 30
  else 31.

(** What the constructor [datetime.date(y, m, d)] accepts. *)
Definition valid_date (d : date) : bool :=
  (1 <=? year d) && (year d <=? 9999)
  && (1 <=? month d) && (month d <=? 12)
  && (1 <=? day d) && (day d <=? days_in_month (year d) (month d)).

(** [a <= b] on dates: year, then month, then day. *)
Definition date_le (a b : date) : bool :=
  (year a <? year b)
  || (year a =? year b)
     && ((month a <? month b)
         || (month a =? month b) && (day a <=? day b)).

(** *** [datetime.strptime(s, "%Y-%m-%d (%A)")]

    The format compiles to the regular expression
    [(\d\d\d\d)-(1[0-2]|0[1-9]|[1-9])-(3[01]|[12]\d|0[1-9]|[1-9]| [1-9])\s+\((weekday)\)],
    matched from the start, ignoring case, and the match has to cover
    all of [s]; the weekday name is not compared with the date. *)

Definition digit_value (c : ascii) : Z := Z.of_nat (nat_of_ascii c) - 48.

Definition is_digit_between (lo hi : Z) (c : ascii) : bool :=
  PyStr.isdigit c && (lo <=? digit_value c) && (digit_value c <=? hi).

(** [%Y]: four digits. *)
Definition scan_year (s : string) : option (Z * string) :=
  match s with
  | String a (String b (String c (String d rest))) =>
      if PyStr.isdigit a && PyStr.isdigit b && PyStr.isdigit c
         && PyStr.isdigit d
      then Some (((digit_value a * 10 + digit_value b) * 10
                  + digit_value c) * 10 + digit_value d, rest)
      else None
  | _ => None
  end.

(** [%m] up to the hyphen that follows it: [1[0-2]], [0[1-9]] or
    [[1-9]]. *)
Definition scan_month (s : string) : option (Z * string) :=
  match s with
  | String a (String b rest) =>
      if Ascii.eqb b "-" then
        if is_digit_between 1 9 a then Some (digit_value a, rest) else None
      else
        match rest with
        | String h rest' =>
            if Ascii.eqb h "-"
               && (Ascii.eqb a "1" && is_digit_between 0 2 b
                   || Ascii.eqb a "0" && is_digit_between 1 9 b)
            then Some (digit_value a * 10 + digit_value b, rest')
            else None
        | EmptyString => None
        end
  | _ => None
  end.

(** [%d] up to the first white space that follows it: [3[01]],
    [[12]\d], [0[1-9]], [[1-9]] or a space and [[1-9]]. *)
Definition scan_day (s : string) : option (Z * string) :=
  match s with
  | String a (String b rest) =>
      if PyStr.isspace b then
        if is_digit_between 1 9 a then Some (digit_value a, rest) else None
      else
        match rest with
        | String w rest' =>
            if PyStr.isspace w
               && (Ascii.eqb a "3" && is_digit_between 0 1 b
                   || is_digit_between 1 2 a && PyStr.isdigit b
                   || Ascii.eqb a "0" && is_digit_between 1 9 b
                   || Ascii.eqb a " " && is_digit_between 1 9 b)
            then Some ((if Ascii.eqb a " " then 0 else digit_value a) * 10
                       + digit_value b, rest')
            else None
        | EmptyString => None
        end
  | _ => None
  end.

(** [calendar.day_name] *)
Definition day_name : list string :=
  ["Monday"; "Tuesday"; "Wednesday"; "Thursday"; "Friday"; "Saturday";
   "Sunday"].

(** [\((weekday)\)] to the end of the text, the weekday being one of
    [calendar.day_name] in any letter case. *)
Definition scan_weekday (s : string) : bool :=
  match s with
  | String c rest =>
      Ascii.eqb c "("
      && existsb (fun name =>
                    String.eqb (PyStr.lower rest)
                               (PyStr.lower name ++ ")")%string)
           day_name
  | EmptyString => false
  end.

(** [None] stands for [ValueError]. *)
Definition strptime (s : string) : option date :=
  match scan_year s with
  | Some (y, String h r1) =>
      if Ascii.eqb h "-" then
        match scan_month r1 with
        | Some (m, r2) =>
            match scan_day r2 with
            | Some (d, r3) =>
                if scan_weekday (PyStr.lstrip r3)
                   && valid_date (mkdate y m d)
                then Some (mkdate y m d)
                else None
            | None => None
            end
        | None => None
        end
      else None
  | _ => None
  end.

(** *** [d.strftime("%Y-%m-%d (%A)")] *)

(** Days before the first of January of year [y], counted from the
    first of January of year 1. *)
Definition days_before_year (y : Z) : Z :=
  (y - 1) * 365 + (y - 1) / 4 - (y - 1) / 100 + (y - 1) / 400.

Definition days_before_month (y m : Z) : Z :=
  nth (Z.to_nat (m - 1))
      [0; 31; 59; 90; 120; 151; 181; 212; 243; 273; 304; 334] 0
  + (if (2 <? m) && is_leap y then 1 else 0).

(** [d.toordinal()]: the first of January of year 1 is day 1. *)
Definition toordinal (d : date) : Z :=
  days_before_year (year d) + days_before_month (year d) (month d) + day d.

(** [d.weekday()]: Monday is 0. *)
Definition weekday (d : date) : Z := (toordinal d + 6) mod 7.

Definition digit_char (k : Z) : ascii := ascii_of_nat (48 + Z.to_nat k).

Definition two_digits (n : Z) : string :=
  String (digit_char (n / 10)) (String (digit_char (n mod 10)) EmptyString).

(** [%Y]: the year in decimal; the C library does not pad it, so it has
    four digits from the year 1000 on. *)
Definition year_text (y : Z) : string :=
  if y <? 1000 then Json.dumps_int y
  else (two_digits (y / 100) ++ two_digits (y mod 100))%string.

Definition strftime (d : date) : string :=
  (year_text (year d) ++ "-" ++ two_digits (month d) ++ "-"
   ++ two_digits (day d) ++ " ("
   ++ nth (Z.to_nat (weekday d)) day_name "" ++ ")")%string.

(** ** The form (lines 45-122) *)

(** The five choices of the mood radio button. *)
Inductive mood : Type := Happy | Sad | Angry | Tired | Excited.

(** [mood_options[selected_mood]]: the mood's name and its colour. *)
Definition mood_options (m : mood) : string * string :=
  match m with
  | Happy => ("Happy", "#9b59b6")
  | Sad => ("Sad", "#3498DB")
  | Angry => ("Angry", "#E74C3C")
  | Tired => ("Tired", "#f4b400")
  | Excited => ("Excited", "#F1C40F")
  end.

(** The widget values a run of the script reads; [uploaded_image] is
    the uploaded file's name and its bytes. *)
Record form : Type := mkform {
  selected_date : date;
  selected_mood : mood;
  title : string;
  username : string;
  uploaded_image : option (string * string);
  diary_text : string;
  tags_input : string
}.

(** Line 46. *)
Definition formatted_date (f : form) : string := strftime (selected_date f).

(** [s or default] on strings. *)
Definition str_or (s default : string) : string :=
  if PyStr.truthy s then s else default.

(** The dictionary of lines 112-120. *)
Definition new_entry (f : form) (image_path : json) : dict :=
  [ ("title", JStr (str_or (title f) "Untitled"));
    ("date", JStr (formatted_date f));
    ("mood", JStr (fst (mood_options (selected_mood f))));
    ("text", JStr (diary_text f));
    ("tags", JArr (map JStr (tags_list (tags_input f))));
    ("username", JStr (str_or (username f) "Unknown User"));
    ("image", image_path) ].

Section SaveButton.

Variable json_dumps : json -> string.

(** The body of [if st.button("Save Entry")]: store the image, append
    the entry, write the whole list.  The state is the list [entries]
    and the files on disk. *)
Definition save_entry (f : form) (entries : list dict) (fs : filesystem) :
  list dict * filesystem :=
  let '(image_path, fs1) :=
    match uploaded_image f with
    | Some (name, bytes) =>
        let path := ("uploaded_images/" ++ name)%string in
        (JStr path, fs_write path bytes fs)
    | None => (JNull, fs)
    end in
  let entries' := entries ++ [new_entry f image_path] in
  (entries', save_entries json_dumps entries' fs1).

End SaveButton.

(** ** The sidebar filter (lines 159-181) *)

(** [v.lower()]: only a [str] has the method. *)
Definition py_lower (v : json) : result string :=
  match v with
  | JStr s => Ok (PyStr.lower s)
  | _ => Raise AttributeError
  end.

Fixpoint chars (s : string) : list json :=
  match s with
  | EmptyString => []
  | String c s' => JStr (String c EmptyString) :: chars s'
  end.

(** [iter(v)]: the items of a list, the characters of a string, the keys
    of a dictionary; nothing else can be iterated. *)
Definition py_iter (v : json) : result (list json) :=
  match v with
  | JArr items => Ok items
  | JStr s => Ok (chars s)
  | JObj members => Ok (map (fun kv => JStr (fst kv)) members)
  | _ => Raise TypeError
  end.

(** [any(q in tag.lower() for tag in tags)]: stops at the first hit. *)
Fixpoint any_tag (q : string) (tags : list json) : result bool :=
  match tags with
  | [] => Ok false
  | tag :: rest =>
      t <- py_lower tag ;;
      if PyStr.contains t q then Ok true else any_tag q rest
  end.

(** The left operand of [and] on line 170, [search_query] being [q]. *)
Definition search_match (q : string) (entry : dict) : result bool :=
  let q' := PyStr.lower q in
  t <- py_lower (dict_get "title" (JStr "") entry) ;;
  if PyStr.contains t q' then Ok true
  else
    tags <- py_iter (dict_get "tags" (JArr []) entry) ;;
    any_tag q' tags.

(** The right operand, line 171. *)
Definition date_match (start_date end_date : date) (entry : dict) :
  result bool :=
  match dict_lookup "date" entry with
  | None => Raise KeyError
  | Some (JStr s) =>
      match strptime s with
      | Some d => Ok (date_le start_date d && date_le d end_date)
      | None => Raise ValueError
      end
  | Some _ => Raise TypeError
  end.

(** The condition of the comprehension: [and] evaluates its right
    operand only when the left one is true. *)
Definition keep (q : string) (start_date end_date : date) (entry : dict) :
  result bool :=
  found <- search_match q entry ;;
  if found then date_match start_date end_date entry else Ok false.

Fixpoint filtered_entries (q : string) (start_date end_date : date)
    (entries : list dict) : result (list dict) :=
  match entries with
  | [] => Ok []
  | entry :: rest =>
      k <- keep q start_date end_date entry ;;
      rest' <- filtered_entries q start_date end_date rest ;;
      Ok (if k then entry :: rest' else rest')
  end.

(** The order in which line 181 lays the buttons out:
    [reversed(filtered_entries)]. *)
Definition displayed (q : string) (start_date end_date : date)
    (entries : list dict) : result (list dict) :=
  kept <- filtered_entries q start_date end_date entries ;;
  Ok (rev kept).

(** ** Vocabulary of the specification *)

(** The seven fields of a diary entry. *)
Definition entry_fields : list string :=
  ["title"; "date"; "mood"; "text"; "tags"; "username"; "image"].

(** The fields [load_entries] gives a default to. *)
Definition defaulted_fields : list string :=
  ["title"; "tags"; "username"; "image"].

(** What [backfill] leaves behind a key: the old binding, or the default
    of a defaulted field, or nothing. *)
Definition default_of (key : string) : option json :=
  if String.eqb key "title" then Some (JStr "Untitled")
  else if String.eqb key "tags" then Some (JArr [])
  else if String.eqb key "username" then Some (JStr "Unknown User")
  else if String.eqb key "image" then Some JNull
  else None.

(** [key in d] *)
Definition has_key (key : string) (d : dict) : bool :=
  match dict_lookup key d with
  | Some _ => true
  | None => false
  end.

Definition has_fields (fields : list string) (d : dict) : Prop :=
  forall key, In key fields -> has_key key d = true.

Definition has_all_fields (d : dict) : Prop := has_fields entry_fields d.

(** A disk with no file, and a disk whose only file is the store. *)
Definition no_files : filesystem := fun _ => None.

Definition only_store (text : string) : filesystem :=
  fs_write STORAGE_FILE text no_files.

(** [q] occurs in [t] as a contiguous run of characters. *)
Definition occurs_in (q t : string) : Prop :=
  exists pre post, t = (pre ++ q ++ post)%string.

(** Two characters that are the same letter: equal, or one is the
    capital of the other (capitals sit 32 below their small letters). *)
Definition same_letter (c d : ascii) : Prop :=
  c = d
  \/ (PyStr.isupper c = true /\ nat_of_ascii d = (nat_of_ascii c + 32)%nat)
  \/ (PyStr.isupper d = true /\ nat_of_ascii c = (nat_of_ascii d + 32)%nat).

(** Two strings that are equal up to the case of their letters. *)
Inductive eq_nocase : string -> string -> Prop :=
| eq_nocase_nil : eq_nocase EmptyString EmptyString
| eq_nocase_cons c d s t :
    same_letter c d -> eq_nocase s t -> eq_nocase (String c s) (String d t).

(** [q] is a case-insensitive substring of [t]: some run of [t] equals
    [q] up to case. *)
Definition occurs_nocase (q t : string) : Prop :=
  exists pre mid post,
    t = (pre ++ mid ++ post)%string /\ eq_nocase mid q.

Fixpoint all_space (s : string) : bool :=
  match s with
  | EmptyString => true
  | String c s' => PyStr.isspace c && all_space s'
  end.

(** A string with no white space at either end. *)
Definition trimmed (t : string) : Prop :=
  (forall c r, t = String c r -> PyStr.isspace c = false)
  /\ (forall r c, t = (r ++ String c EmptyString)%string ->
                  PyStr.isspace c = false).

(** The title an entry shows to the search, and its tags. *)
Definition title_is (x : dict) (t : string) : Prop :=
  dict_get "title" (JStr "") x = JStr t.

Definition tags_are (x : dict) (tags : list string) : Prop :=
  dict_get "tags" (JArr []) x = JArr (map JStr tags).

(** The entries the form produces: the title is text, the tags are a
    list of strings and the date is text in the format of line 46. *)
Definition well_formed_entry (x : dict) : Prop :=
  (exists t, title_is x t)
  /\ (exists tags, tags_are x tags)
  /\ (exists text d,
        dict_lookup "date" x = Some (JStr text) /\ strptime text = Some d).

(** Both operands of the filter condition hold. *)
Definition accepts (q : string) (start_date end_date : date) (x : dict) :
  bool :=
  match search_match q x, date_match start_date end_date x with
  | Ok true, Ok true => true
  | _, _ => false
  end.

(** An entry as the form builds it, with the given date, title and tag
    inputs. *)
Definition entry_on (d : date) (title_text tags_text : string) : dict :=
  new_entry (mkform d Happy title_text "" None "" tags_text) JNull.

(** ** The sidebar buttons and the detail view (lines 181-209) *)

(** The mood emoji of the source, one character each, written as their
    code points (they lie above 255). *)
Definition grinning_face : Z := 0x1F600.
Definition crying_face : Z := 0x1F622.
Definition angry_face : Z := 0x1F620.
Definition sleeping_face : Z := 0x1F634.
Definition sunglasses_face : Z := 0x1F60E.
Definition smiling_face : Z := 0x1F60A.

(** The keys of [mood_options], which are the labels of the radio
    button: an emoji, then a space and the name. *)
Definition mood_label (m : mood) : Z * string :=
  match m with
  | Happy => (grinning_face, " Happy")
  | Sad => (crying_face, " Sad")
  | Angry => (angry_face, " Angry")
  | Tired => (sleeping_face, " Tired")
  | Excited => (sunglasses_face, " Excited")
  end.

(** The dictionary literal of lines 183-188. *)
Definition mood_icons : list (string * Z) :=
  [ ("Happy", grinning_face); ("Sad", crying_face); ("Angry", angry_face);
    ("Tired", sleeping_face); ("Excited", sunglasses_face) ].

Fixpoint icon_lookup (key : string) (table : list (string * Z)) : option Z :=
  match table with
  | [] => None
  | (k, icon) :: table' =>
      if String.eqb k key then Some icon else icon_lookup key table'
  end.

(** [mood_icons.get(v, default)]: a list or a dictionary cannot be
    hashed; any other value that is not a key gives the default. *)
Definition mood_icon (v : json) : result Z :=
  match v with
  | JStr s =>
      Ok (match icon_lookup s mood_icons with
          | Some icon => icon
          | None => smiling_face
          end)
  | JArr _ | JObj _ => Raise TypeError
  | _ => Ok smiling_face
  end.

(** Lines 183-189, the first statement of the loop body. *)
Definition entry_icon (entry : dict) : result Z :=
  match dict_lookup "mood" entry with
  | Some v => mood_icon v
  | None => Raise KeyError
  end.

(** The date of an entry when it is text, as it is for every entry the
    filter keeps. *)
Definition date_text (entry : dict) : option string :=
  match dict_lookup "date" entry with
  | Some (JStr s) => Some s
  | _ => None
  end.

(** Line 194 for such an entry: [f"{entry['date']}-{idx}"]. *)
Definition button_key (date : string) (idx : nat) : string :=
  (date ++ "-" ++ Json.dumps_int (Z.of_nat idx))%string.

(** [bool(v)] *)
Definition py_truthy (v : json) : bool :=
  match v with
  | JNull => false
  | JBool b => b
  | JNum n => negb (n =? 0)
  | JStr s => PyStr.truthy s
  | JArr items => match items with [] => false | _ => true end
  | JObj members => match members with [] => false | _ => true end
  end.

(** The items of [sep.join(items)] have to be strings. *)
Fixpoint strings_of (items : list json) : result (list string) :=
  match items with
  | [] => Ok []
  | JStr s :: rest => ss <- strings_of rest ;; Ok (s :: ss)
  | _ :: _ => Raise TypeError
  end.

(** Lines 206-207: the tags line of the detail view, [None] when the
    line is not shown. *)
Definition tags_line (entry : dict) : result (option string) :=
  match dict_lookup "tags" entry with
  | None => Raise KeyError
  | Some v =>
      if py_truthy v then
        items <- py_iter v ;;
        ss <- strings_of items ;;
        Ok (Some (PyStr.join ", " ss))
      else Ok None
  end.

(** ** More vocabulary *)

Fixpoint all_digits (s : string) : bool :=
  match s with
  | EmptyString => true
  | String c s' => PyStr.isdigit c && all_digits s'
  end.

(** A text of white space and commas only. *)
Fixpoint blank (s : string) : bool :=
  match s with
  | EmptyString => true
  | String c s' => (PyStr.isspace c || Ascii.eqb c ",") && blank s'
  end.

Definition no_comma (s : string) : Prop :=
  ~ In ","%char (list_ascii_of_string s).

(** An entry made by the save button from a date the C library prints
    with four digits. *)
Definition form_entry (x : dict) : Prop :=
  exists f image_path,
    x = new_entry f image_path
    /\ valid_date (selected_date f) = true
    /\ 1000 <= year (selected_date f).

(** ** [json.load] with the exceptions it raises

    On malformed text [json.load] raises [json.JSONDecodeError].  The
    decoder fails in other ways too: it converts an integer literal with
    [int], which refuses a literal of more than 4300 digits
    ([sys.int_info.default_max_str_digits]) with a [ValueError].  An
    outcome is [Ok (Some v)] for a value, [Ok None] for
    [json.JSONDecodeError] and [Raise e] for any other exception. *)

Module JsonDecoder.

Definition max_str_digits : nat := 4300.

(** The integer part of a number literal at the front of [s], the sign
    left aside: a single ["0"], or a run of digits. *)
Definition int_part (s : string) : string * string :=
  match s with
  | String c r => if Ascii.eqb c "0" then ("0", r) else Json.span_digits s
  | EmptyString => (EmptyString, EmptyString)
  end.

Definition starts_digit (s : string) : bool :=
  match s with
  | String c _ => PyStr.isdigit c
  | EmptyString => false
  end.

(** Whether the text after the integer part makes the literal a
    [float]: a "." and a digit, or an exponent that has a digit. *)
Definition is_float (rest : string) : bool :=
  match rest with
  | String c r =>
      if Ascii.eqb c "." then starts_digit r
      else if Ascii.eqb c "e" || Ascii.eqb c "E" then
        match r with
        | String sign r' =>
            if Ascii.eqb sign "+" || Ascii.eqb sign "-" then starts_digit r'
            else PyStr.isdigit sign
        | EmptyString => false
        end
      else false
  | EmptyString => false
  end.

(** A number literal: [int] is called on the digits unless the literal
    is a [float], and raises on more than [max_str_digits] of them. *)
Definition scan_int (s : string) : result (option (Z * string)) :=
  let body :=
    match s with
    | String c s' => if Ascii.eqb c "-" then s' else s
    | EmptyString => s
    end in
  let (ds, rest) := int_part body in
  if (max_str_digits <? String.length ds)%nat && negb (is_float rest)
  then Raise ValueError
  else Ok (Json.scan_int s).

(** Go on with [k] after a successful scan. *)
Definition and_then {A B : Type} (r : result (option (A * string)))
    (k : A -> string -> result (option B)) : result (option B) :=
  match r with
  | Ok (Some (a, rest)) => k a rest
  | Ok None => Ok None
  | Raise e => Raise e
  end.

(** The scanner of [Json], with the exceptions passed on. *)
Fixpoint scan_value (fuel : nat) (s : string) :
  result (option (json * string)) :=
  match fuel with
  | O => Ok None
  | S fuel' =>
      match s with
      | EmptyString => Ok None
      | String c r =>
          if Ascii.eqb c Json.dquote then
            match Json.scan_string r with
            | Some (str, rest) => Ok (Some (JStr str, rest))
            | None => Ok None
            end
          else if Ascii.eqb c "{" then
            match Json.skip_ws r with
            | EmptyString => Ok None
            | String c1 r1 as body =>
                if Ascii.eqb c1 "}" then Ok (Some (JObj [], r1))
                else and_then (scan_members fuel' body)
                       (fun pairs rest =>
                          Ok (Some (JObj (dict_of_pairs pairs), rest)))
            end
          else if Ascii.eqb c "[" then
            match Json.skip_ws r with
            | EmptyString => Ok None
            | String c1 r1 as body =>
                if Ascii.eqb c1 "]" then Ok (Some (JArr [], r1))
                else and_then (scan_items fuel' body)
                       (fun items rest => Ok (Some (JArr items, rest)))
            end
          else if Ascii.eqb c "n" then
            Ok (option_map (pair JNull) (Json.after_prefix "ull" r))
          else if Ascii.eqb c "t" then
            Ok (option_map (pair (JBool true)) (Json.after_prefix "rue" r))
          else if Ascii.eqb c "f" then
            Ok (option_map (pair (JBool false)) (Json.after_prefix "alse" r))
          else
            and_then (scan_int s) (fun n rest => Ok (Some (JNum n, rest)))
      end
  end

with scan_items (fuel : nat) (s : string) :
  result (option (list json * string)) :=
  match fuel with
  | O => Ok None
  | S fuel' =>
      and_then (scan_value fuel' s)
        (fun v r =>
           match Json.skip_ws r with
           | EmptyString => Ok None
           | String c r1 =>
               if Ascii.eqb c "," then
                 and_then (scan_items fuel' (Json.skip_ws r1))
                   (fun vs rest => Ok (Some (v :: vs, rest)))
               else if Ascii.eqb c "]" then Ok (Some ([v], r1))
               else Ok None
           end)
  end

with scan_members (fuel : nat) (s : string) :
  result (option (list (string * json) * string)) :=
  match fuel with
  | O => Ok None
  | S fuel' =>
      match s with
      | EmptyString => Ok None
      | String q r =>
          if negb (Ascii.eqb q Json.dquote) then Ok None
          else
            match Json.scan_string r with
            | None => Ok None
            | Some (key, r1) =>
                match Json.skip_ws r1 with
                | EmptyString => Ok None
                | String c r2 =>
                    if negb (Ascii.eqb c ":") then Ok None
                    else
                      and_then (scan_value fuel' (Json.skip_ws r2))
                        (fun v r3 =>
                           match Json.skip_ws r3 with
                           | EmptyString => Ok None
                           | String c' r4 =>
                               if Ascii.eqb c' "," then
                                 and_then
                                   (scan_members fuel' (Json.skip_ws r4))
                                   (fun ms rest =>
                                      Ok (Some ((key, v) :: ms, rest)))
                               else if Ascii.eqb c' "}"
                               then Ok (Some ([(key, v)], r4))
                               else Ok None
                           end)
                end
            end
      end
  end.

(** [json.load(file)] on the text of the file. *)
Definition load (s : string) : result (option json) :=
  and_then (scan_value (2 * String.length s + 2) (Json.skip_ws s))
    (fun v rest =>
       match Json.skip_ws rest with
       | EmptyString => Ok (Some v)
       | String _ _ => Ok None
       end).

End JsonDecoder.

(** [load_entries] with every outcome of [json.load] (lines 10-27): the
    [except] clause of line 25 names [json.JSONDecodeError] and nothing
    else, so that any other exception raised inside the [try] block
    leaves the function. *)
Definition load_entries_try (json_load : string -> result (option json))
    (fs : filesystem) : result (list dict) :=
  match fs STORAGE_FILE with
  | Some text =>
      decoded <- json_load text ;;
      match decoded with
      | Some (JArr entries) => backfill_all entries
      | Some _ => Ok []
      | None => Ok []
      end
  | None => Ok []
  end.

(** The digit 1, written [n] times. *)
Definition ones (n : nat) : string :=
  string_of_list_ascii (repeat "1"%char n).

(** ** Text beyond code point 255

    [str.lower] is not a map on single characters: a capital sigma
    becomes a final sigma or a small sigma, depending on the letters
    around it.  Here text is a sequence of code points, and [lower] is
    [str.lower] on the text whose code points lie in the tables below:
    Basic Latin, Latin-1 and the unaccented Greek letters. *)

Module Unicode.

Definition text : Type := list Z.

Definition capital_sigma : Z := 0x3A3.
Definition small_sigma : Z := 0x3C3.
Definition final_sigma : Z := 0x3C2.

Definition between (lo hi c : Z) : bool := (lo <=? c) && (c <=? hi).

Definition in_tables (c : Z) : bool :=
  between 0 0xFF c || between 0x391 0x3A1 c || between 0x3A3 0x3A9 c
  || between 0x3B1 0x3C9 c.

(** The capitals; the small letter of each sits 32 above it. *)
Definition is_upper (c : Z) : bool :=
  between 0x41 0x5A c || between 0xC0 0xD6 c || between 0xD8 0xDE c
  || between 0x391 0x3A1 c || between 0x3A3 0x3A9 c.

Definition to_lower (c : Z) : Z := if is_upper c then c + 32 else c.

(** The property Cased. *)
Definition is_cased (c : Z) : bool :=
  between 0x41 0x5A c || between 0x61 0x7A c
  || (c =? 0xAA) || (c =? 0xB5) || (c =? 0xBA)
  || between 0xC0 0xD6 c || between 0xD8 0xF6 c || between 0xF8 0xFF c
  || between 0x391 0x3A1 c || between 0x3A3 0x3A9 c || between 0x3B1 0x3C9 c.

(** The property Case_Ignorable: apostrophe, full stop, colon,
    circumflex, grave accent, and in Latin-1 the diaeresis, the soft
    hyphen, the macron, the acute accent, the middle dot and the
    cedilla. *)
Definition is_case_ignorable (c : Z) : bool :=
  (c =? 0x27) || (c =? 0x2E) || (c =? 0x3A) || (c =? 0x5E) || (c =? 0x60)
  || (c =? 0xA8) || (c =? 0xAD) || (c =? 0xAF) || (c =? 0xB4)
  || (c =? 0xB7) || (c =? 0xB8).

(** Whether the first code point of [s] that is not case-ignorable is a
    cased letter. *)
Fixpoint cased_next (s : text) : bool :=
  match s with
  | [] => false
  | c :: s' => if is_case_ignorable c then cased_next s' else is_cased c
  end.

(** What a capital sigma becomes: a final sigma when a cased letter
    comes before it and none after it, case-ignorable characters left
    aside; [before] is the text before the sigma, nearest first. *)
Definition lower_sigma (before after : text) : Z :=
  if cased_next before && negb (cased_next after)
  then final_sigma else small_sigma.

Fixpoint lower_from (before s : text) : text :=
  match s with
  | [] => []
  | c :: s' =>
      (if c =? capital_sigma then lower_sigma before s' else to_lower c)
        :: lower_from (c :: before) s'
  end.

(** [s.lower()]; no result for text outside the tables. *)
Definition lower (s : text) : option text :=
  if forallb in_tables s then Some (lower_from [] s) else None.

Fixpoint lower_all (ts : list text) : option (list text) :=
  match ts with
  | [] => Some []
  | t :: ts' =>
      match lower t, lower_all ts' with
      | Some t', Some ts'' => Some (t' :: ts'')
      | _, _ => None
      end
  end.

Fixpoint prefix (q t : text) : bool :=
  match q, t with
  | [], _ => true
  | _ :: _, [] => false
  | c :: q', d :: t' => (c =? d) && prefix q' t'
  end.

(** [q in t] *)
Fixpoint contains (t q : text) : bool :=
  if prefix q t then true
  else match t with
       | [] => false
       | _ :: t' => contains t' q
       end.

(** The left operand of [and] on line 170, for an entry whose title is
    text and whose tags are a list of text. *)
Definition search (q title : text) (tags : list text) : option bool :=
  match lower q, lower title, lower_all tags with
  | Some q', Some title', Some tags' =>
      Some (contains title' q' || existsb (fun tag => contains tag q') tags')
  | _, _, _ => None
  end.

(** The code points of a string whose characters lie below 256. *)
Definition code (c : ascii) : Z := Z.of_nat (nat_of_ascii c).

Definition codes (s : string) : text := map code (list_ascii_of_string s).

End Unicode.

(** * Properties *)

(** ** Dictionaries *)

Lemma dict_lookup_app key d d' :
  dict_lookup key (d ++ d') =
  match dict_lookup key d with
  | Some v => Some v
  | None => dict_lookup key d'
  end.
Proof.
  induction d as [|[k v] d IH]; simpl; [reflexivity|].
  destruct (String.eqb k key); [reflexivity | exact IH].
Qed.

Lemma setdefault_present key default d v :
  dict_lookup key d = Some v -> setdefault key default d = d.
Proof. unfold setdefault. intros ->. reflexivity. Qed.

Lemma lookup_setdefault_same key default d :
  dict_lookup key (setdefault key default d) =
  Some (dict_get key default d).
Proof.
  unfold setdefault, dict_get.
  destruct (dict_lookup key d) eqn:E; [exact E|].
  rewrite dict_lookup_app, E. simpl. rewrite String.eqb_refl. reflexivity.
Qed.

Lemma lookup_setdefault_other key key' default d :
  key <> key' ->
  dict_lookup key' (setdefault key default d) = dict_lookup key' d.
Proof.
  intros Hne. unfold setdefault.
  destruct (dict_lookup key d); [reflexivity|].
  rewrite dict_lookup_app. destruct (dict_lookup key' d); [reflexivity|].
  simpl. destruct (String.eqb_spec key key'); [contradiction | reflexivity].
Qed.

Lemma lookup_setdefault_kept key key' default d v :
  dict_lookup key' d = Some v ->
  dict_lookup key' (setdefault key default d) = Some v.
Proof.
  intros H. unfold setdefault.
  destruct (dict_lookup key d); [exact H|].
  rewrite dict_lookup_app, H. reflexivity.
Qed.

(** ** Back-filling *)

Lemma lookup_backfill key d :
  dict_lookup key (backfill d) =
  match dict_lookup key d with
  | Some v => Some v
  | None => default_of key
  end.
Proof.
  unfold backfill, default_of.
  destruct (dict_lookup key d) as [v|] eqn:E.
  - repeat apply lookup_setdefault_kept. exact E.
  - destruct (String.eqb_spec key "title") as [->|Ht].
    { do 3 (rewrite lookup_setdefault_other by discriminate).
      rewrite lookup_setdefault_same. unfold dict_get. rewrite E.
      reflexivity. }
    destruct (String.eqb_spec key "tags") as [->|Hg].
    { do 2 (rewrite lookup_setdefault_other by discriminate).
      rewrite lookup_setdefault_same. unfold dict_get.
      rewrite lookup_setdefault_other by discriminate. rewrite E.
      reflexivity. }
    destruct (String.eqb_spec key "username") as [->|Hu].
    { rewrite lookup_setdefault_other by discriminate.
      rewrite lookup_setdefault_same. unfold dict_get.
      do 2 (rewrite lookup_setdefault_other by discriminate). rewrite E.
      reflexivity. }
    destruct (String.eqb_spec key "image") as [->|Hi].
    { rewrite lookup_setdefault_same. unfold dict_get.
      do 3 (rewrite lookup_setdefault_other by discriminate). rewrite E.
      reflexivity. }
    do 4 (rewrite lookup_setdefault_other by congruence). exact E.
Qed.

Lemma backfill_has_defaulted d : has_fields defaulted_fields (backfill d).
Proof.
  intros key Hin. unfold has_key. rewrite lookup_backfill.
  destruct (dict_lookup key d); [reflexivity|].
  simpl in Hin.
  destruct Hin as [<-|[<-|[<-|[<-|[]]]]]; reflexivity.
Qed.

(** An entry that has the four defaulted fields is left as it is. *)
Lemma backfill_id d : has_fields defaulted_fields d -> backfill d = d.
Proof.
  intros H. unfold backfill.
  assert (Hk : forall key, In key defaulted_fields ->
                 exists v, dict_lookup key d = Some v).
  { intros key Hin. specialize (H key Hin). unfold has_key in H.
    destruct (dict_lookup key d) as [v|]; [eauto | discriminate]. }
  destruct (Hk "title") as [v1 E1]; [simpl; auto|].
  destruct (Hk "tags") as [v2 E2]; [simpl; auto|].
  destruct (Hk "username") as [v3 E3]; [simpl; auto|].
  destruct (Hk "image") as [v4 E4]; [simpl; auto 6|].
  rewrite (setdefault_present _ _ _ _ E1).
  rewrite (setdefault_present _ _ _ _ E2).
  rewrite (setdefault_present _ _ _ _ E3).
  rewrite (setdefault_present _ _ _ _ E4).
  reflexivity.
Qed.

(** [backfill_all] returns exactly on the lists of dictionaries. *)
Lemma backfill_all_dicts ds :
  backfill_all (map JObj ds) = Ok (map backfill ds).
Proof.
  induction ds as [|d ds IH]; simpl; [reflexivity|].
  rewrite IH. reflexivity.
Qed.

Lemma backfill_all_ok items es :
  backfill_all items = Ok es ->
  exists ds, items = map JObj ds /\ es = map backfill ds.
Proof.
  revert es. induction items as [|v items IH]; simpl; intros es H.
  - injection H as <-. exists []. split; reflexivity.
  - destruct v; try discriminate.
    destruct (backfill_all items) as [rest|e] eqn:E; simpl in H;
      [|discriminate].
    injection H as <-.
    destruct (IH rest eq_refl) as (ds & -> & ->).
    exists (members :: ds). split; reflexivity.
Qed.

Lemma backfill_all_raises items :
  (exists v, In v items /\ forall d, v <> JObj d) ->
  backfill_all items = Raise AttributeError.
Proof.
  intros (v & Hin & Hv).
  induction items as [|x items IH]; simpl in *; [contradiction|].
  destruct Hin as [->|Hin].
  - destruct v; try reflexivity. exfalso. apply (Hv members). reflexivity.
  - destruct x; try reflexivity. rewrite (IH Hin). reflexivity.
Qed.

(** ** The entry store *)

Section StoreFacts.

Variable json_loads : string -> option json.

(** Whatever [load_entries] returns went through [backfill]. *)
Lemma load_entries_ok fs es :
  load_entries json_loads fs = Ok es ->
  exists ds, es = map backfill ds.
Proof.
  unfold load_entries. intros H.
  destruct (fs STORAGE_FILE) as [text|];
    [|injection H as <-; exists []; reflexivity].
  destruct (json_loads text) as [v|];
    [|injection H as <-; exists []; reflexivity].
  destruct v; try (injection H as <-; exists []; reflexivity).
  destruct (backfill_all_ok _ _ H) as (ds & _ & ->). exists ds. reflexivity.
Qed.

End StoreFacts.




(** The cases of [load_entries] when [json.load] returns a value or
    raises [json.JSONDecodeError]: the empty list when the file is
    absent, when [json.load] raises [json.JSONDecodeError], and when the
    value is not a list; when it is a list of dictionaries, they are
    returned with the four defaults filled in. *)
Theorem load_entries_cases
    (json_loads : string -> option json) (fs : filesystem) :
  (fs STORAGE_FILE = None -> load_entries json_loads fs = Ok [])
  /\ (forall text,
        fs STORAGE_FILE = Some text -> json_loads text = None ->
        load_entries json_loads fs = Ok [])
  /\ (forall text v,
        fs STORAGE_FILE = Some text -> json_loads text = Some v ->
        (forall items, v <> JArr items) ->
        load_entries json_loads fs = Ok [])
  /\ (forall text ds,
        fs STORAGE_FILE = Some text ->
        json_loads text = Some (JArr (map JObj ds)) ->
        load_entries json_loads fs = Ok (map backfill ds)).
Proof.
  unfold load_entries. repeat split.
  - intros ->. reflexivity.
  - intros text -> ->. reflexivity.
  - intros text v -> -> Hv. destruct v; try reflexivity.
    exfalso. apply (Hv items). reflexivity.
  - intros text ds -> ->. apply backfill_all_dicts.
Qed.

Lemma load_entries_cases_witness :
  load_entries Json.loads no_files = Ok []
  /\ load_entries Json.loads (only_store "[{]") = Ok []
  /\ load_entries Json.loads (only_store "{}") = Ok []
  /\ load_entries Json.loads (only_store "[{}, {}]")
     = Ok [backfill []; backfill []].
Proof.
  destruct (load_entries_cases Json.loads no_files) as (H1 & _).
  destruct (load_entries_cases Json.loads (only_store "[{]"))
    as (_ & H2 & _).
  destruct (load_entries_cases Json.loads (only_store "{}"))
    as (_ & _ & H3 & _).
  destruct (load_entries_cases Json.loads (only_store "[{}, {}]"))
    as (_ & _ & _ & H4).
  split; [|split; [|split]].
  - apply H1. reflexivity.
  - apply (H2 "[{]"); reflexivity.
  - apply (H3 "{}" (JObj [])); [reflexivity | reflexivity | discriminate].
  - apply (H4 "[{}, {}]" [[]; []]); reflexivity.
Defined.

(** A parsed list is not always returned: the store file [[1]] parses
    to a list, and [load_entries] raises. *)
Lemma load_entries_returns_counterexample :
  ~ (forall fs text items,
        fs STORAGE_FILE = Some text ->
        Json.loads text = Some (JArr items) ->
        exists es, load_entries Json.loads fs = Ok es).
Proof.
  intros H.
  destruct (H (only_store "[1]") "[1]" [JNum 1] eq_refl eq_refl) as (es & He).
  discriminate He.
Qed.

(** The exception is [AttributeError], for any list with an element
    that is not a dictionary. *)
Lemma load_entries_raises
    (json_loads : string -> option json) fs text items :
  fs STORAGE_FILE = Some text ->
  json_loads text = Some (JArr items) ->
  (exists v, In v items /\ forall d, v <> JObj d) ->
  load_entries json_loads fs = Raise AttributeError.
Proof.
  intros Hf Hl Hv. unfold load_entries. rewrite Hf, Hl.
  apply backfill_all_raises. exact Hv.
Qed.

(** ** The exceptions of [json.load] *)

Module DecoderFacts.

Lemma scan_int_agrees s o :
  JsonDecoder.scan_int s = Ok o -> Json.scan_int s = o.
Proof.
  unfold JsonDecoder.scan_int.
  destruct (JsonDecoder.int_part _) as [ds rest].
  destruct (_ && _); [discriminate|]. intros [= <-]. reflexivity.
Qed.

Ltac scanned IH H :=
  match type of H with
  | context [JsonDecoder.and_then ?r _] =>
      let E := fresh "E" in
      destruct r as [[[? ?]|]|?] eqn:E; cbn [JsonDecoder.and_then] in H;
      [apply IH in E; rewrite E; clear E; cbv beta iota
      |apply IH in E; rewrite E | discriminate H]
  end.

Ltac same H := injection H as <-; reflexivity.

(** Where the decoder raises nothing but [json.JSONDecodeError], it
    reads what [Json] reads. *)
Lemma scan_agrees fuel :
  (forall s o,
      JsonDecoder.scan_value fuel s = Ok o -> Json.scan_value fuel s = o)
  /\ (forall s o,
         JsonDecoder.scan_items fuel s = Ok o -> Json.scan_items fuel s = o)
  /\ (forall s o,
         JsonDecoder.scan_members fuel s = Ok o ->
         Json.scan_members fuel s = o).
Proof.
  induction fuel as [|fuel (IHv & IHi & IHm)];
    [repeat split; intros s o H; same H|].
  split; [|split]; intros s o H.
  - cbn [JsonDecoder.scan_value] in H. cbn [Json.scan_value].
    destruct s as [|c r]; [same H|].
    destruct (Ascii.eqb c Json.dquote).
    { destruct (Json.scan_string r) as [[str rest]|]; same H. }
    destruct (Ascii.eqb c "{").
    { destruct (Json.skip_ws r) as [|c1 r1]; [same H|].
      destruct (Ascii.eqb c1 "}"); [same H|].
      scanned IHm H; same H. }
    destruct (Ascii.eqb c "[").
    { destruct (Json.skip_ws r) as [|c1 r1]; [same H|].
      destruct (Ascii.eqb c1 "]"); [same H|].
      scanned IHi H; same H. }
    destruct (Ascii.eqb c "n"); [same H|].
    destruct (Ascii.eqb c "t"); [same H|].
    destruct (Ascii.eqb c "f"); [same H|].
    scanned scan_int_agrees H; same H.
  - cbn [JsonDecoder.scan_items] in H. cbn [Json.scan_items].
    scanned IHv H; [|same H].
    destruct (Json.skip_ws _) as [|c r1]; [same H|].
    destruct (Ascii.eqb c ","); [scanned IHi H; same H|].
    destruct (Ascii.eqb c "]"); same H.
  - cbn [JsonDecoder.scan_members] in H. cbn [Json.scan_members].
    destruct s as [|q r]; [same H|].
    destruct (negb (Ascii.eqb q Json.dquote)); [same H|].
    destruct (Json.scan_string r) as [[key r1]|]; [|same H].
    destruct (Json.skip_ws r1) as [|c r2]; [same H|].
    destruct (negb (Ascii.eqb c ":")); [same H|].
    scanned IHv H; [|same H].
    destruct (Json.skip_ws _) as [|c' r4]; [same H|].
    destruct (Ascii.eqb c' ","); [scanned IHm H; same H|].
    destruct (Ascii.eqb c' "}"); same H.
Qed.

Lemma load_agrees s o : JsonDecoder.load s = Ok o -> Json.loads s = o.
Proof.
  unfold JsonDecoder.load, Json.loads. intros H.
  scanned (proj1 (scan_agrees (2 * String.length s + 2))) H; [|same H].
  destruct (Json.skip_ws _); same H.
Qed.

End DecoderFacts.

(** The store as [load_entries] has it is the store of
    [load_entries_try] for a [json.load] that raises nothing but
    [json.JSONDecodeError]. *)
Lemma load_entries_try_decoded (json_loads : string -> option json) fs :
  load_entries_try (fun text => Ok (json_loads text)) fs
  = load_entries json_loads fs.
Proof.
  unfold load_entries_try, load_entries.
  destruct (fs STORAGE_FILE); reflexivity.
Qed.

(** Any exception of [json.load] that is not a [JSONDecodeError] leaves
    [load_entries]. *)
Lemma load_entries_try_raises json_load fs text e :
  fs STORAGE_FILE = Some text -> json_load text = Raise e ->
  load_entries_try json_load fs = Raise e.
Proof.
  intros Hf Hl. unfold load_entries_try. rewrite Hf, Hl. reflexivity.
Qed.

(** On the files on which [JsonDecoder.load] raises nothing,
    [load_entries_try] is [load_entries]. *)
Lemma load_entries_try_agrees fs :
  (forall text e,
      fs STORAGE_FILE = Some text -> JsonDecoder.load text <> Raise e) ->
  load_entries_try JsonDecoder.load fs = load_entries Json.loads fs.
Proof.
  intros H. unfold load_entries_try, load_entries.
  destruct (fs STORAGE_FILE) as [text|]; [|reflexivity].
  destruct (JsonDecoder.load text) as [o|e] eqn:E.
  - rewrite (DecoderFacts.load_agrees _ _ E). reflexivity.
  - exfalso. apply (H text e); [reflexivity | exact E].
Qed.

(** C2 does not hold of the code: a store file that [json.load] fails
    to read does not always give the empty list.  On the file that holds
    the digit 1 written 4301 times [json.load] raises [ValueError], which
    the [except] clause of line 25 does not name, and [load_entries]
    raises it.  With one digit less the file holds an integer, which is
    not a list, and the result is the empty list. *)
Theorem load_entries_value_error :
  load_entries_try JsonDecoder.load (only_store (ones 4301))
  = Raise ValueError
  /\ load_entries_try JsonDecoder.load (only_store (ones 4300)) = Ok [].
Proof. split; vm_compute; reflexivity. Qed.



(** ** The save button *)

(** C9: the entry the save button stores, both in [entries] and in the
    store file, has the title ["Untitled"] when the title box is empty
    and the username ["Unknown User"] when the name box is empty. *)
Theorem save_entry_defaults
    (json_dumps : json -> string) (f : form) (entries : list dict)
    (fs : filesystem) :
  exists entry,
    fst (save_entry json_dumps f entries fs) = entries ++ [entry]
    /\ snd (save_entry json_dumps f entries fs) STORAGE_FILE
       = Some (json_dumps (JArr (map JObj (entries ++ [entry]))))
    /\ (title f = "" ->
        dict_lookup "title" entry = Some (JStr "Untitled"))
    /\ (username f = "" ->
        dict_lookup "username" entry = Some (JStr "Unknown User")).
Proof.
  unfold save_entry.
  destruct (uploaded_image f) as [[name bytes]|];
    eexists; (split; [reflexivity|]); (split; [reflexivity|]);
    split; intros E; simpl; rewrite E; reflexivity.
Qed.

Lemma save_entry_defaults_witness :
  let f := mkform (mkdate 2024 1 5) Happy "" "" None "text" "a, b" in
  exists entry,
    fst (save_entry Json.dumps f [] no_files) = [entry]
    /\ dict_lookup "title" entry = Some (JStr "Untitled")
    /\ dict_lookup "username" entry = Some (JStr "Unknown User").
Proof.
  intros f.
  destruct (save_entry_defaults Json.dumps f [] no_files)
    as (entry & He & _ & Ht & Hu).
  exists entry. split; [exact He|]. split.
  - apply Ht. reflexivity.
  - apply Hu. reflexivity.
Defined.

(** A title or a name that was typed in is stored as typed. *)
Lemma new_entry_keeps_text f image_path :
  (title f <> "" -> dict_lookup "title" (new_entry f image_path)
                    = Some (JStr (title f)))
  /\ (username f <> "" -> dict_lookup "username" (new_entry f image_path)
                          = Some (JStr (username f))).
Proof.
  split; intros H; simpl; unfold str_or.
  - destruct (title f); [contradiction | reflexivity].
  - destruct (username f); [contradiction | reflexivity].
Qed.

(** The entry has all seven fields, in the order of the source. *)
Lemma new_entry_has_all_fields f image_path :
  has_all_fields (new_entry f image_path).
Proof.
  intros key Hin. simpl in Hin.
  destruct Hin as [<-|[<-|[<-|[<-|[<-|[<-|[<-|[]]]]]]]]; reflexivity.
Qed.

(** ** The sidebar filter *)

Lemma filtered_entries_ok q s e entries kept :
  filtered_entries q s e entries = Ok kept ->
  kept = filter (fun x => match keep q s e x with
                          | Ok b => b
                          | Raise _ => false
                          end) entries
  /\ Forall (fun x => exists b, keep q s e x = Ok b) entries.
Proof.
  revert kept. induction entries as [|x entries IH]; simpl; intros kept H.
  - injection H as <-. split; constructor.
  - destruct (keep q s e x) as [b|err] eqn:Ek; simpl in H; [|discriminate].
    destruct (filtered_entries q s e entries) as [rest|err] eqn:Er;
      simpl in H; [|discriminate].
    injection H as <-.
    destruct (IH rest eq_refl) as (-> & Hall).
    split; [|constructor; eauto].
    destruct b; reflexivity.
Qed.

Lemma filtered_entries_total q s e entries :
  Forall (fun x => exists b, keep q s e x = Ok b) entries ->
  exists kept, filtered_entries q s e entries = Ok kept.
Proof.
  induction 1 as [|x entries (b & Hb) _ (rest & Hr)]; simpl.
  - eexists. reflexivity.
  - rewrite Hb, Hr. simpl. eexists. reflexivity.
Qed.

Lemma keep_true q s e x :
  keep q s e x = Ok true <->
  search_match q x = Ok true /\ date_match s e x = Ok true.
Proof.
  unfold keep. destruct (search_match q x) as [[|]|err]; simpl.
  - split; [intros H; split; [reflexivity | exact H] | intros [_ H]; exact H].
  - split; [discriminate | intros [H _]; discriminate].
  - split; [discriminate | intros [H _]; discriminate].
Qed.

(** The entry that first makes the comprehension raise decides the
    exception. *)
Lemma filtered_entries_raises q s e before x after err :
  Forall (fun y => exists b, keep q s e y = Ok b) before ->
  keep q s e x = Raise err ->
  filtered_entries q s e (before ++ x :: after) = Raise err.
Proof.
  intros Hb Hx. induction Hb as [|y before (b & Hy) _ IH]; simpl.
  - rewrite Hx. reflexivity.
  - rewrite Hy, IH. reflexivity.
Qed.

(** C10: [load_entries] gives no default to the date, so a store it
    accepts can make the filter raise: [KeyError] for an entry without a
    date, [ValueError] for a date that is not in the format. *)
Theorem filter_raises_on_loaded_store :
  (forall d, dict_lookup "date" (backfill d) = dict_lookup "date" d)
  /\ (exists fs es,
        load_entries Json.loads fs = Ok es
        /\ forall s e, filtered_entries "" s e es = Raise KeyError)
  /\ (exists fs es,
        load_entries Json.loads fs = Ok es
        /\ forall s e, filtered_entries "" s e es = Raise ValueError).
Proof.
  split; [|split].
  - intros d. rewrite lookup_backfill.
    destruct (dict_lookup "date" d); reflexivity.
  - exists (only_store "[{}]"), [backfill []].
    split; [reflexivity|]. intros s e. reflexivity.
  - exists (only_store
              (Json.dumps (JArr [JObj [("date", JStr "05/01/2024")]]))),
           [backfill [("date", JStr "05/01/2024")]].
    split; [vm_compute; reflexivity|]. intros s e. reflexivity.
Qed.

(** ** Strings *)

Lemma append_nil_r s : (s ++ "")%string = s.
Proof. induction s as [|c s IH]; simpl; [|rewrite IH]; reflexivity. Qed.

Lemma append_assoc s t u : ((s ++ t) ++ u = s ++ (t ++ u))%string.
Proof. induction s as [|c s IH]; simpl; [|rewrite IH]; reflexivity. Qed.

Lemma prefix_spec q t :
  String.prefix q t = true <-> exists post, t = (q ++ post)%string.
Proof.
  revert t. induction q as [|c q IH]; intros t.
  - destruct t; simpl; split; eauto.
  - destruct t as [|d t]; simpl.
    + split; [discriminate | intros (post & H); discriminate].
    + destruct (ascii_dec c d) as [->|Hne].
      * rewrite IH. split; intros (post & H); exists post.
        -- rewrite H. reflexivity.
        -- injection H as H. exact H.
      * split; [discriminate|]. intros (post & H). injection H as H _.
        congruence.
Qed.

Lemma contains_eq t q :
  PyStr.contains t q =
  if String.prefix q t then true
  else match t with
       | EmptyString => false
       | String _ t' => PyStr.contains t' q
       end.
Proof. destruct t; reflexivity. Qed.

Lemma contains_spec t q : PyStr.contains t q = true <-> occurs_in q t.
Proof.
  unfold occurs_in. induction t as [|c t IH]; rewrite contains_eq.
  - destruct (String.prefix q "") eqn:E.
    + apply prefix_spec in E. destruct E as (post & E).
      split; [intros _; exists "", post; exact E | reflexivity].
    + split; [discriminate|]. intros (pre & post & H).
      destruct pre; [|discriminate]. simpl in H.
      assert (String.prefix q "" = true)
        by (apply prefix_spec; exists post; exact H).
      congruence.
  - destruct (String.prefix q (String c t)) eqn:E.
    + apply prefix_spec in E. destruct E as (post & E).
      split; [intros _; exists "", post; exact E | reflexivity].
    + rewrite IH. split.
      * intros (pre & post & ->). exists (String c pre), post. reflexivity.
      * intros (pre & post & H). destruct pre as [|d pre].
        -- simpl in H.
           assert (String.prefix q (String c t) = true)
             by (apply prefix_spec; exists post; exact H).
           congruence.
        -- injection H as _ H. exists pre, post. exact H.
Qed.

Lemma lower_append s t :
  PyStr.lower (s ++ t) = (PyStr.lower s ++ PyStr.lower t)%string.
Proof. induction s as [|c s IH]; simpl; [|rewrite IH]; reflexivity. Qed.

(** A split of [lower t] comes from a split of [t]. *)
Lemma lower_split t a b :
  PyStr.lower t = (a ++ b)%string ->
  exists a' b', t = (a' ++ b')%string
                /\ PyStr.lower a' = a /\ PyStr.lower b' = b.
Proof.
  revert t. induction a as [|c a IH]; intros t H.
  - exists "", t. simpl in *. auto.
  - destruct t as [|d t]; [discriminate|]. simpl in H.
    injection H as Hc H. destruct (IH t H) as (a' & b' & -> & <- & <-).
    exists (String d a'), b'. simpl. rewrite Hc. auto.
Qed.

(** *** Letter case *)

Ltac nat_tests :=
  repeat match goal with
    | |- context [Nat.leb ?a ?b] => destruct (Nat.leb_spec a b)
    | |- context [Nat.eqb ?a ?b] => destruct (Nat.eqb_spec a b)
    | |- context [Nat.ltb ?a ?b] => destruct (Nat.ltb_spec a b)
    end.

Lemma isupper_code c :
  PyStr.isupper c = true <->
  (65 <= nat_of_ascii c <= 90
   \/ (192 <= nat_of_ascii c <= 222 /\ nat_of_ascii c <> 215))%nat.
Proof.
  unfold PyStr.isupper. cbv zeta. generalize (nat_of_ascii c). intros n.
  nat_tests; simpl; split; intros Hup; try lia; try discriminate;
    reflexivity.
Qed.

Lemma isupper_code_false c :
  PyStr.isupper c = false <->
  ~ (65 <= nat_of_ascii c <= 90
     \/ (192 <= nat_of_ascii c <= 222 /\ nat_of_ascii c <> 215))%nat.
Proof.
  rewrite <- isupper_code. destruct (PyStr.isupper c); split; congruence.
Qed.

Lemma nat_of_lower_char c :
  nat_of_ascii (PyStr.lower_char c) =
  if PyStr.isupper c then (nat_of_ascii c + 32)%nat else nat_of_ascii c.
Proof.
  unfold PyStr.lower_char. destruct (PyStr.isupper c) eqn:E; [|reflexivity].
  apply nat_ascii_embedding. apply isupper_code in E. lia.
Qed.

Lemma nat_of_ascii_inj c d : nat_of_ascii c = nat_of_ascii d -> c = d.
Proof.
  intros H. rewrite <- (ascii_nat_embedding c), <- (ascii_nat_embedding d).
  rewrite H. reflexivity.
Qed.

(** [lower_char] identifies exactly the characters that are the same
    letter. *)
Lemma lower_char_same_letter c d :
  PyStr.lower_char c = PyStr.lower_char d <-> same_letter c d.
Proof.
  unfold same_letter. split.
  - intros H. apply (f_equal nat_of_ascii) in H.
    rewrite !nat_of_lower_char in H.
    destruct (PyStr.isupper c) eqn:Ec, (PyStr.isupper d) eqn:Ed.
    + left. apply nat_of_ascii_inj. lia.
    + right. left. split; [reflexivity | lia].
    + right. right. split; [reflexivity | lia].
    + left. apply nat_of_ascii_inj. exact H.
  - intros [->|[[Hc Hd]|[Hd Hc]]]; [reflexivity| |];
      apply nat_of_ascii_inj; rewrite !nat_of_lower_char.
    + rewrite Hc. apply isupper_code in Hc.
      assert (Ed : PyStr.isupper d = false)
        by (apply isupper_code_false; lia).
      rewrite Ed. lia.
    + rewrite Hd. apply isupper_code in Hd.
      assert (Ec : PyStr.isupper c = false)
        by (apply isupper_code_false; lia).
      rewrite Ec. lia.
Qed.

Lemma lower_eq_nocase s t :
  PyStr.lower s = PyStr.lower t <-> eq_nocase s t.
Proof.
  split.
  - revert t. induction s as [|c s IH]; intros [|d t] H; try discriminate.
    + constructor.
    + simpl in H. injection H as Hc H. constructor.
      * apply lower_char_same_letter. exact Hc.
      * apply IH. exact H.
  - induction 1 as [|c d s t Hcd _ IH]; simpl; [reflexivity|].
    apply lower_char_same_letter in Hcd. rewrite Hcd, IH. reflexivity.
Qed.

(** The test of line 170, [q.lower() in t.lower()], is the
    case-insensitive substring test. *)
Lemma contains_lower_spec q t :
  PyStr.contains (PyStr.lower t) (PyStr.lower q) = true <->
  occurs_nocase q t.
Proof.
  rewrite contains_spec. unfold occurs_in, occurs_nocase. split.
  - intros (pre & post & H).
    destruct (lower_split _ _ _ H) as (pre' & rest & -> & _ & Hr).
    destruct (lower_split _ _ _ Hr) as (mid & post' & -> & Hm & _).
    exists pre', mid, post'. split; [reflexivity|].
    apply lower_eq_nocase. exact Hm.
  - intros (pre & mid & post & -> & Hm). apply lower_eq_nocase in Hm.
    exists (PyStr.lower pre), (PyStr.lower post).
    rewrite !lower_append, Hm. reflexivity.
Qed.

(** ** Search *)

Lemma any_tag_strings q tags :
  any_tag q (map JStr tags) =
  Ok (existsb (fun tag => PyStr.contains (PyStr.lower tag) q) tags).
Proof.
  induction tags as [|tag tags IH]; simpl; [reflexivity|].
  destruct (PyStr.contains (PyStr.lower tag) q); [reflexivity | exact IH].
Qed.

Lemma search_match_typed q x t tags :
  title_is x t -> tags_are x tags ->
  search_match q x =
  Ok (PyStr.contains (PyStr.lower t) (PyStr.lower q)
      || existsb (fun tag =>
                    PyStr.contains (PyStr.lower tag) (PyStr.lower q)) tags).
Proof.
  unfold title_is, tags_are, search_match. intros -> ->. simpl.
  destruct (PyStr.contains (PyStr.lower t) (PyStr.lower q));
    [reflexivity|].
  apply any_tag_strings.
Qed.

(** On text of code points below 256, where [str.lower] maps each
    character by itself, the search accepts an entry exactly when the
    query is a case-insensitive substring of its title or of one of its
    tags; so the query ["health"] finds every entry tagged ["Health"]. *)
Theorem search_match_spec (q : string) (x : dict) (t : string)
    (tags : list string) :
  title_is x t -> tags_are x tags ->
  (exists b,
      search_match q x = Ok b
      /\ (b = true <->
          occurs_nocase q t
          \/ exists tag, In tag tags /\ occurs_nocase q tag))
  /\ (q = "health" -> In "Health" tags -> search_match q x = Ok true).
Proof.
  intros Ht Hg. rewrite (search_match_typed q x t tags Ht Hg).
  assert (Hiff :
    PyStr.contains (PyStr.lower t) (PyStr.lower q)
    || existsb (fun tag =>
                  PyStr.contains (PyStr.lower tag) (PyStr.lower q)) tags
    = true <->
    occurs_nocase q t \/ exists tag, In tag tags /\ occurs_nocase q tag).
  { rewrite Bool.orb_true_iff, existsb_exists, contains_lower_spec.
    split; (intros [H|(tag & Hin & H)]; [left; exact H | right]);
      exists tag; (split; [exact Hin|]); apply contains_lower_spec; exact H. }
  split.
  - eexists. split; [reflexivity | exact Hiff].
  - intros -> Hin. f_equal. apply Hiff. right. exists "Health".
    split; [exact Hin|]. apply contains_lower_spec. reflexivity.
Qed.

Lemma search_match_spec_witness :
  let x := entry_on (mkdate 2024 1 5) "Gym day" "Health, Sport" in
  search_match "health" x = Ok true
  /\ PyStr.contains (PyStr.lower "Gym day") (PyStr.lower "health") = false.
Proof.
  intros x. split; [|reflexivity].
  apply (search_match_spec "health" x "Gym day" ["Health"; "Sport"]);
    [reflexivity | reflexivity | reflexivity | simpl; auto].
Defined.

(** ** Search on text beyond code point 255 *)

Module UnicodeFacts.
Import Unicode.

Lemma codes_cons c s : codes (String c s) = code c :: codes s.
Proof. reflexivity. Qed.

Lemma code_in_tables c : in_tables (code c) = true.
Proof. destruct c as [[] [] [] [] [] [] [] []]; reflexivity. Qed.

(** Below 256 there is no sigma, and [to_lower] is [PyStr.lower_char]. *)
Lemma code_lower c x :
  (if code c =? capital_sigma then x else to_lower (code c))
  = code (PyStr.lower_char c).
Proof. destruct c as [[] [] [] [] [] [] [] []]; reflexivity. Qed.

Lemma code_eqb a b : (code a =? code b) = Ascii.eqb a b.
Proof.
  destruct (Ascii.eqb_spec a b) as [->|Hne]; [apply Z.eqb_refl|].
  apply Z.eqb_neq. intros H. apply Hne. unfold code in H.
  apply Nat2Z.inj in H.
  rewrite <- (ascii_nat_embedding a), <- (ascii_nat_embedding b), H.
  reflexivity.
Qed.

Lemma codes_in_tables s : forallb in_tables (codes s) = true.
Proof.
  induction s as [|c s IH]; [reflexivity|].
  rewrite codes_cons. cbn [forallb]. rewrite code_in_tables. exact IH.
Qed.

Lemma lower_from_codes s before :
  lower_from before (codes s) = codes (PyStr.lower s).
Proof.
  revert before. induction s as [|c s IH]; intros before; [reflexivity|].
  cbn [PyStr.lower]. rewrite !codes_cons. cbn [lower_from].
  rewrite code_lower, IH. reflexivity.
Qed.

(** On text of code points below 256, [lower] is [PyStr.lower]. *)
Lemma lower_codes s : lower (codes s) = Some (codes (PyStr.lower s)).
Proof.
  unfold lower. rewrite codes_in_tables, lower_from_codes. reflexivity.
Qed.

Lemma lower_all_codes tags :
  lower_all (map codes tags) = Some (map codes (map PyStr.lower tags)).
Proof.
  induction tags as [|t tags IH]; [reflexivity|].
  cbn [map lower_all]. rewrite lower_codes, IH. reflexivity.
Qed.

Lemma prefix_codes q t : prefix (codes q) (codes t) = String.prefix q t.
Proof.
  revert t. induction q as [|a q IH]; intros t;
    [destruct t; reflexivity|].
  destruct t as [|b t]; [reflexivity|].
  rewrite !codes_cons. cbn [prefix String.prefix].
  rewrite code_eqb, IH.
  destruct (Ascii.eqb_spec a b) as [->|Hne];
    destruct (ascii_dec _ _); try contradiction; reflexivity.
Qed.

Lemma contains_codes t q :
  contains (codes t) (codes q) = PyStr.contains t q.
Proof.
  induction t as [|c t IH]; rewrite contains_eq.
  - change (codes "") with (@nil Z). cbn [contains].
    rewrite <- prefix_codes. change (codes "") with (@nil Z).
    destruct (prefix (codes q) []); reflexivity.
  - rewrite codes_cons. cbn [contains]. rewrite <- codes_cons, prefix_codes.
    rewrite IH. reflexivity.
Qed.

(** On an entry whose title and tags are text of code points below 256,
    [search] is [search_match]. *)
Lemma search_codes q x t tags :
  title_is x t -> tags_are x tags ->
  exists b,
    search_match q x = Ok b
    /\ search (codes q) (codes t) (map codes tags) = Some b.
Proof.
  intros Ht Hg.
  exists (PyStr.contains (PyStr.lower t) (PyStr.lower q)
          || existsb (fun tag =>
                        PyStr.contains (PyStr.lower tag) (PyStr.lower q))
               tags).
  split; [apply search_match_typed; assumption|].
  unfold search. rewrite !lower_codes, lower_all_codes, contains_codes.
  f_equal. f_equal. clear Hg.
  induction tags as [|tag tags IH]; [reflexivity|].
  cbn [map existsb]. rewrite contains_codes, IH. reflexivity.
Qed.

End UnicodeFacts.

(** C6 does not hold of the code: a query that occurs in the title is
    not always found.  The title is the Greek word for street in
    capitals (omicron, delta, omicron, sigma) and the query is the
    capital sigma.  [str.lower] turns the sigma at the end of the title
    into a final sigma and the sigma of the query into a small sigma, so
    that line 170 finds no match. *)
Theorem search_misses_final_sigma :
  let title := [0x39F; 0x394; 0x39F; 0x3A3] in
  let query := [0x3A3] in
  Unicode.contains title query = true
  /\ Unicode.lower title = Some [0x3BF; 0x3B4; 0x3BF; 0x3C2]
  /\ Unicode.lower query = Some [0x3C3]
  /\ Unicode.search query title [] = Some false.
Proof. repeat split. Qed.

(** On anything but text the search raises. *)
Lemma search_match_untyped_title q x v :
  dict_lookup "title" x = Some v -> (forall t, v <> JStr t) ->
  search_match q x = Raise AttributeError.
Proof.
  intros E Hv. unfold search_match, dict_get. rewrite E.
  destruct v; try reflexivity. exfalso. apply (Hv s). reflexivity.
Qed.

(** ** Dates *)

Lemma date_le_refl d : date_le d d = true.
Proof.
  unfold date_le. rewrite !Z.eqb_refl, Z.leb_refl. simpl.
  rewrite !Bool.orb_true_r. reflexivity.
Qed.

(** [date_le] is the order on (year, month, day). *)
Lemma date_le_spec a b :
  date_le a b = true <->
  year a < year b
  \/ (year a = year b
      /\ (month a < month b \/ (month a = month b /\ day a <= day b))).
Proof.
  unfold date_le.
  rewrite !Bool.orb_true_iff, !Bool.andb_true_iff, !Bool.orb_true_iff,
    !Bool.andb_true_iff, !Z.ltb_lt, !Z.eqb_eq, Z.leb_le.
  reflexivity.
Qed.

(** *** Formatting, then parsing *)

Lemma digit_char_spec k :
  0 <= k <= 9 ->
  PyStr.isdigit (digit_char k) = true /\ digit_value (digit_char k) = k.
Proof.
  intros H.
  assert (Hk : k = 0 \/ k = 1 \/ k = 2 \/ k = 3 \/ k = 4 \/ k = 5 \/ k = 6
               \/ k = 7 \/ k = 8 \/ k = 9) by lia.
  repeat destruct Hk as [->|Hk]; try subst k; split; reflexivity.
Qed.

Lemma scan_year_text y rest :
  1000 <= y <= 9999 -> scan_year (year_text y ++ rest) = Some (y, rest).
Proof.
  intros Hy. unfold year_text.
  destruct (Z.ltb_spec y 1000) as [Hlt|_]; [lia|].
  assert (Ha : 0 <= y / 100 / 10 <= 9) by (Z.div_mod_to_equations; lia).
  assert (Hb : 0 <= (y / 100) mod 10 <= 9)
    by (Z.div_mod_to_equations; lia).
  assert (Hc : 0 <= y mod 100 / 10 <= 9) by (Z.div_mod_to_equations; lia).
  assert (Hd : 0 <= (y mod 100) mod 10 <= 9)
    by (Z.div_mod_to_equations; lia).
  destruct (digit_char_spec _ Ha) as (Ia & Va).
  destruct (digit_char_spec _ Hb) as (Ib & Vb).
  destruct (digit_char_spec _ Hc) as (Ic & Vc).
  destruct (digit_char_spec _ Hd) as (Id & Vd).
  unfold two_digits. cbn [append]. unfold scan_year.
  rewrite Ia, Ib, Ic, Id, Va, Vb, Vc, Vd. cbn [andb].
  f_equal. f_equal. Z.div_mod_to_equations. lia.
Qed.

Lemma scan_month_text m rest :
  1 <= m <= 12 ->
  scan_month (two_digits m ++ String "-" rest) = Some (m, rest).
Proof.
  intros H. rewrite <- (Z2Nat.id m) by lia.
  assert (Hn : (Z.to_nat m <= 12)%nat) by lia.
  assert (Hp : (1 <= Z.to_nat m)%nat) by lia.
  revert Hn Hp. generalize (Z.to_nat m). intros n Hn Hp.
  do 13 (destruct n as [|n]; [try lia; reflexivity|]). lia.
Qed.

Lemma scan_day_text d rest :
  1 <= d <= 31 ->
  scan_day (two_digits d ++ String " " rest) = Some (d, rest).
Proof.
  intros H. rewrite <- (Z2Nat.id d) by lia.
  assert (Hn : (Z.to_nat d <= 31)%nat) by lia.
  assert (Hp : (1 <= Z.to_nat d)%nat) by lia.
  revert Hn Hp. generalize (Z.to_nat d). intros n Hn Hp.
  do 32 (destruct n as [|n]; [try lia; reflexivity|]). lia.
Qed.

Lemma scan_weekday_name w :
  0 <= w < 7 ->
  scan_weekday (String "(" (nth (Z.to_nat w) day_name "" ++ ")")) = true.
Proof.
  intros H. rewrite <- (Z2Nat.id w) in H by lia.
  revert H. generalize (Z.to_nat w). intros n Hn.
  do 7 (destruct n as [|n]; [reflexivity|]). lia.
Qed.

Lemma days_in_month_le y m : days_in_month y m <= 31.
Proof.
  unfold days_in_month.
  destruct (m =? 2); [destruct (is_leap y); lia|].
  destruct ((m =? 4) || (m =? 6) || (m =? 9) || (m =? 11)); lia.
Qed.

(** A date the picker can give, once formatted by line 46, is parsed
    back by line 171. *)
Lemma strptime_strftime d :
  valid_date d = true -> 1000 <= year d ->
  strptime (strftime d) = Some d.
Proof.
  intros Hv Hy. pose proof Hv as Hv'. unfold valid_date in Hv'.
  repeat (apply Bool.andb_true_iff in Hv'; destruct Hv' as (Hv' & ?)).
  repeat match goal with
         | H : (_ <=? _) = true |- _ => apply Z.leb_le in H
         end.
  pose proof (days_in_month_le (year d) (month d)).
  unfold strptime, strftime.
  rewrite scan_year_text by lia.
  cbn [append]. rewrite Ascii.eqb_refl, scan_month_text by lia.
  rewrite scan_day_text by lia.
  change (PyStr.lstrip (String "(" ?s)) with (String "(" s).
  rewrite scan_weekday_name by (apply Z.mod_pos_bound; lia).
  destruct d as [y m dd]. simpl in *. rewrite Hv. reflexivity.
Qed.

(** C7: an entry whose date text parses to [d] passes the date filter
    exactly when [start_date <= d <= end_date]; both ends of the range
    pass.  Of three entries dated 2024-01-01, 2024-01-05 and 2024-01-10,
    the range from 2024-01-02 to 2024-01-06 keeps the second only. *)
Theorem date_match_spec (start_date end_date : date) (x : dict)
    (text : string) (d : date) :
  dict_lookup "date" x = Some (JStr text) -> strptime text = Some d ->
  (exists b,
      date_match start_date end_date x = Ok b
      /\ (b = true <->
          date_le start_date d = true /\ date_le d end_date = true))
  /\ date_match d d x = Ok true
  /\ (let e1 := entry_on (mkdate 2024 1 1) "a" "" in
      let e2 := entry_on (mkdate 2024 1 5) "b" "" in
      let e3 := entry_on (mkdate 2024 1 10) "c" "" in
      filtered_entries "" (mkdate 2024 1 2) (mkdate 2024 1 6) [e1; e2; e3]
      = Ok [e2]).
Proof.
  intros Hd Hp. unfold date_match. rewrite Hd, Hp. split; [|split].
  - eexists. split; [reflexivity|]. apply Bool.andb_true_iff.
  - rewrite date_le_refl. reflexivity.
  - reflexivity.
Qed.

Lemma date_match_spec_witness :
  let x := entry_on (mkdate 2024 1 5) "b" "" in
  date_match (mkdate 2024 1 5) (mkdate 2024 1 5) x = Ok true
  /\ date_match (mkdate 2024 1 2) (mkdate 2024 1 6) x = Ok true.
Proof.
  intros x.
  destruct (date_match_spec (mkdate 2024 1 2) (mkdate 2024 1 6) x
              "2024-01-05 (Friday)" (mkdate 2024 1 5) eq_refl eq_refl)
    as ((b & Hb & Hiff) & Hsame & _).
  split; [exact Hsame|].
  rewrite Hb. f_equal. apply Hiff. split; reflexivity.
Defined.

(** ** The combined filter and the display order *)

Lemma accepts_keep q s e x :
  accepts q s e x = match keep q s e x with
                    | Ok b => b
                    | Raise _ => false
                    end.
Proof.
  unfold accepts, keep.
  destruct (search_match q x) as [[|]|err]; simpl; [|reflexivity..].
  destruct (date_match s e x) as [[|]|err]; reflexivity.
Qed.

Lemma accepts_true q s e x :
  accepts q s e x = true <->
  search_match q x = Ok true /\ date_match s e x = Ok true.
Proof.
  unfold accepts.
  destruct (search_match q x) as [[|]|e1];
    destruct (date_match s e x) as [[|]|e2];
    split; try discriminate; try (intros [? ?]; discriminate); auto.
Qed.

Lemma filter_rev {A : Type} (f : A -> bool) (l : list A) :
  filter f (rev l) = rev (filter f l).
Proof.
  induction l as [|a l IH]; simpl; [reflexivity|].
  rewrite filter_app, IH. simpl.
  destruct (f a); simpl; [reflexivity | apply app_nil_r].
Qed.

Lemma well_formed_keep q s e x :
  well_formed_entry x -> exists b, keep q s e x = Ok b.
Proof.
  intros ((t & Ht) & (tags & Hg) & (text & d & Hd & Hp)).
  unfold keep. rewrite (search_match_typed q x t tags Ht Hg). simpl.
  match goal with |- context [if ?c then _ else _] => destruct c end;
    [|eexists; reflexivity].
  unfold date_match. rewrite Hd, Hp. eexists. reflexivity.
Qed.

(** The entries the save button builds are well-formed, whatever was
    typed in the form. *)
Lemma new_entry_well_formed f image_path :
  valid_date (selected_date f) = true -> 1000 <= year (selected_date f) ->
  well_formed_entry (new_entry f image_path).
Proof.
  intros Hv Hy. split; [|split].
  - eexists. reflexivity.
  - eexists. reflexivity.
  - exists (formatted_date f), (selected_date f). split; [reflexivity|].
    apply strptime_strftime; assumption.
Qed.

(** C8: on a store of well-formed entries the filter returns; whenever
    it returns, it keeps exactly the entries that pass both the search
    and the date test, in store order, and the sidebar shows them in the
    reverse of that order. *)
Theorem filtered_entries_spec (q : string) (start_date end_date : date)
    (entries : list dict) :
  (Forall well_formed_entry entries ->
   exists kept, filtered_entries q start_date end_date entries = Ok kept)
  /\ forall kept,
       filtered_entries q start_date end_date entries = Ok kept ->
       kept = filter (accepts q start_date end_date) entries
       /\ (forall x,
              In x kept <->
              In x entries
              /\ search_match q x = Ok true
              /\ date_match start_date end_date x = Ok true)
       /\ displayed q start_date end_date entries = Ok (rev kept)
       /\ rev kept = filter (accepts q start_date end_date) (rev entries).
Proof.
  split.
  - intros Hwf. apply filtered_entries_total.
    eapply Forall_impl; [|exact Hwf].
    intros x Hx. apply well_formed_keep. exact Hx.
  - intros kept H.
    assert (Hk : kept = filter (accepts q start_date end_date) entries).
    { destruct (filtered_entries_ok _ _ _ _ _ H) as (-> & _).
      apply filter_ext. intros x. symmetry. apply accepts_keep. }
    split; [exact Hk|]. split; [|split].
    + intros x. rewrite Hk, filter_In, accepts_true. reflexivity.
    + unfold displayed. rewrite H. reflexivity.
    + rewrite Hk. symmetry. apply filter_rev.
Qed.

Lemma filtered_entries_spec_witness :
  let e1 := entry_on (mkdate 2024 1 1) "Plans" "Health" in
  let e2 := entry_on (mkdate 2024 1 5) "Healthy food" "" in
  let e3 := entry_on (mkdate 2024 1 6) "Trip" "Travel" in
  let e4 := entry_on (mkdate 2024 1 6) "Run" "health, sport" in
  displayed "health" (mkdate 2024 1 2) (mkdate 2024 1 6) [e1; e2; e3; e4]
  = Ok [e4; e2].
Proof.
  intros e1 e2 e3 e4.
  destruct (filtered_entries_spec "health" (mkdate 2024 1 2)
              (mkdate 2024 1 6) [e1; e2; e3; e4]) as (_ & H).
  destruct (H [e2; e4] eq_refl) as (_ & _ & Hshow & _).
  exact Hshow.
Defined.

(** ** Tag parsing *)

Lemma split_not_nil sep s : PyStr.split sep s <> [].
Proof.
  destruct s as [|c s]; simpl; [discriminate|].
  destruct (Ascii.eqb c sep); [discriminate|].
  destruct (PyStr.split sep s); discriminate.
Qed.

Lemma join_cons sep p ps :
  ps <> [] ->
  PyStr.join sep (p :: ps) = (p ++ sep ++ PyStr.join sep ps)%string.
Proof. destruct ps; [contradiction | reflexivity]. Qed.

(** Putting the separator back between the pieces gives the input. *)
Lemma join_split sep s :
  PyStr.join (String sep EmptyString) (PyStr.split sep s) = s.
Proof.
  induction s as [|c s IH]; [reflexivity|].
  cbn [PyStr.split]. destruct (Ascii.eqb_spec c sep) as [->|Hne].
  - rewrite join_cons by apply split_not_nil. rewrite IH. reflexivity.
  - pose proof (split_not_nil sep s) as Hnil.
    destruct (PyStr.split sep s) as [|p ps]; [contradiction|].
    destruct ps as [|p' ps].
    + simpl in *. rewrite IH. reflexivity.
    + rewrite join_cons by discriminate.
      rewrite join_cons in IH by discriminate.
      simpl. rewrite <- IH. reflexivity.
Qed.

(** No piece holds a separator. *)
Lemma split_no_sep sep s :
  Forall (fun p => ~ In sep (list_ascii_of_string p)) (PyStr.split sep s).
Proof.
  induction s as [|c s IH]; cbn [PyStr.split].
  - constructor; [simpl; tauto | constructor].
  - destruct (Ascii.eqb_spec c sep) as [->|Hne].
    + constructor; [simpl; tauto | exact IH].
    + pose proof (split_not_nil sep s) as Hnil.
      destruct (PyStr.split sep s) as [|p ps]; [contradiction|].
      inversion IH as [|? ? Hp Hps]; subst.
      constructor; [|exact Hps].
      simpl. intros [H|H]; [congruence | exact (Hp H)].
Qed.

Lemma lstrip_spec s :
  (exists l, s = (l ++ PyStr.lstrip s)%string /\ all_space l = true)
  /\ forall c r, PyStr.lstrip s = String c r -> PyStr.isspace c = false.
Proof.
  induction s as [|a s ((l & Hl & Hsp) & Hhead)]; simpl.
  - split; [exists ""; auto | discriminate].
  - destruct (PyStr.isspace a) eqn:Ea.
    + split; [|exact Hhead].
      exists (String a l). simpl. rewrite Ea, Hsp, <- Hl.
      split; reflexivity.
    + split; [exists ""; auto|].
      intros c r H. injection H as <- _. exact Ea.
Qed.

Lemma rstrip_eq a s :
  PyStr.rstrip (String a s) =
  match PyStr.rstrip s with
  | EmptyString =>
      if PyStr.isspace a then EmptyString else String a EmptyString
  | r => String a r
  end.
Proof. reflexivity. Qed.

Lemma append_last_not_nil r c : (r ++ String c "")%string <> "".
Proof. destruct r; discriminate. Qed.

Lemma rstrip_spec s :
  (exists r, s = (PyStr.rstrip s ++ r)%string /\ all_space r = true)
  /\ forall r c, PyStr.rstrip s = (r ++ String c "")%string ->
                 PyStr.isspace c = false.
Proof.
  induction s as [|a s ((r & Hr & Hsp) & Hlast)].
  - split; [exists ""; auto|].
    intros r c H. symmetry in H. apply append_last_not_nil in H.
    contradiction.
  - rewrite rstrip_eq. destruct (PyStr.rstrip s) as [|b u] eqn:E.
    + destruct (PyStr.isspace a) eqn:Ea.
      * split.
        -- exists (String a r). simpl in *. rewrite Ea, Hsp, <- Hr.
           split; reflexivity.
        -- intros r' c H. symmetry in H. apply append_last_not_nil in H.
           contradiction.
      * split.
        -- exists r. simpl in *. rewrite <- Hr. split; [reflexivity|].
           rewrite Hr. exact Hsp.
        -- intros r' c H. destruct r' as [|d r'].
           ++ injection H as <-. exact Ea.
           ++ injection H as _ H. symmetry in H.
              apply append_last_not_nil in H. contradiction.
    + split.
      * exists r. simpl in *. rewrite <- Hr. split; [reflexivity|].
        exact Hsp.
      * intros r' c H. destruct r' as [|d r'].
        -- discriminate H.
        -- injection H as _ H. apply (Hlast r' c). exact H.
Qed.

Lemma all_space_append l r :
  all_space (l ++ r) = all_space l && all_space r.
Proof.
  induction l as [|c l IH]; simpl; [reflexivity|].
  rewrite IH. apply Bool.andb_assoc.
Qed.

(** [strip] removes white space from both ends, and nothing else. *)
Lemma strip_spec p :
  (exists l r, p = (l ++ PyStr.strip p ++ r)%string
               /\ all_space l = true /\ all_space r = true)
  /\ trimmed (PyStr.strip p).
Proof.
  unfold PyStr.strip.
  destruct (lstrip_spec p) as ((l & Hl & Hls) & Hhead).
  destruct (rstrip_spec (PyStr.lstrip p)) as ((r & Hr & Hrs) & Hlast).
  split.
  - exists l, r. rewrite <- Hr. auto.
  - split; [|exact Hlast].
    intros c u H. apply (Hhead c (u ++ r)%string).
    rewrite Hr at 1. rewrite H. reflexivity.
Qed.

Lemma map_filter_comm {A B : Type} (f : A -> B) (g : B -> bool) l :
  map f (filter (fun a => g (f a)) l) = filter g (map f l).
Proof.
  induction l as [|a l IH]; simpl; [reflexivity|].
  destruct (g (f a)); simpl; rewrite IH; reflexivity.
Qed.

(** C5: the tags are the pieces of the input between its commas, each
    with the white space at its ends removed, without the pieces that
    are then empty; the pieces stay in input order and repeated tags
    stay. *)
Theorem tags_list_spec (tags_input : string) :
  let pieces := PyStr.split "," tags_input in
  PyStr.join "," pieces = tags_input
  /\ Forall (fun p => ~ In ","%char (list_ascii_of_string p)) pieces
  /\ tags_list tags_input = filter PyStr.truthy (map PyStr.strip pieces)
  /\ (forall p,
        (exists l r, p = (l ++ PyStr.strip p ++ r)%string
                     /\ all_space l = true /\ all_space r = true)
        /\ trimmed (PyStr.strip p))
  /\ tags_list "Travel, , Work,Health " = ["Travel"; "Work"; "Health"]
  /\ tags_list "b,a , b" = ["b"; "a"; "b"].
Proof.
  intros pieces. split; [apply join_split|].
  split; [apply split_no_sep|].
  split; [apply map_filter_comm|].
  split; [apply strip_spec|].
  split; reflexivity.
Qed.

(** Every tag is non-empty and has no white space at its ends. *)
Lemma tags_list_trimmed tags_input :
  Forall (fun tag => tag <> "" /\ trimmed tag) (tags_list tags_input).
Proof.
  unfold tags_list. rewrite map_filter_comm.
  apply Forall_forall. intros tag Hin. apply filter_In in Hin.
  destruct Hin as (Hin & Ht). apply in_map_iff in Hin.
  destruct Hin as (p & <- & _). split; [|apply strip_spec].
  intros E. rewrite E in Ht. discriminate.
Qed.

(** ** The JSON text format: reading back what was written *)

Module JsonFacts.
Import Json.

Lemma scan_string_escape_char c r :
  scan_string (escape_char c ++ r) = cons_char c (scan_string r).
Proof.
  destruct c as [[|] [|] [|] [|] [|] [|] [|] [|]]; reflexivity.
Qed.

Lemma scan_string_escape s rest :
  scan_string (escape s ++ String dquote rest) = Some (s, rest).
Proof.
  induction s as [|c s IH]; [reflexivity|].
  simpl escape. rewrite append_assoc, scan_string_escape_char, IH.
  reflexivity.
Qed.

Lemma scan_string_quote s rest :
  exists body,
    (quote s ++ rest)%string = String dquote body
    /\ scan_string body = Some (s, rest).
Proof.
  exists (escape s ++ String dquote rest)%string. split.
  - unfold quote. simpl. rewrite append_assoc. reflexivity.
  - apply scan_string_escape.
Qed.

Lemma follows_cases rest :
  follows rest = true ->
  rest = "" \/ (exists r, rest = String "," r)
  \/ (exists r, rest = String "010" r).
Proof.
  destruct rest as [|c r]; simpl; [auto|].
  destruct (Ascii.eqb_spec c ","); [subst; eauto|].
  destruct (Ascii.eqb_spec c "010"); [subst; eauto | discriminate].
Qed.

Ltac follows_cases H :=
  apply follows_cases in H; destruct H as [->|[[? ->]|[? ->]]].

Lemma pos_to_uint_head p : head_nonzero (Pos.to_uint p).
Proof.
  pose proof (DecimalPos.Unsigned.to_of (Pos.to_uint p)) as Hn.
  rewrite DecimalPos.Unsigned.of_to in Hn. simpl in Hn.
  pose proof (DecimalPos.Unsigned.to_uint_nonzero p) as Hz.
  unfold Decimal.unorm in Hn.
  destruct (Decimal.nzhead (Pos.to_uint p)) eqn:E;
    try (rewrite Hn; exact I).
  - contradiction.
  - exfalso. exact (DecimalFacts.nzhead_nonzero _ _ E).
Qed.

Lemma span_digits_uint u rest :
  follows rest = true ->
  span_digits (NilEmpty.string_of_uint u ++ rest)
  = (NilEmpty.string_of_uint u, rest).
Proof.
  intros Hf. induction u; simpl; try (rewrite IHu; reflexivity).
  follows_cases Hf; reflexivity.
Qed.

Lemma string_of_uint_head u :
  head_nonzero u ->
  exists c s,
    NilEmpty.string_of_uint u = String c s
    /\ Ascii.eqb c "0" = false /\ PyStr.isdigit c = true
    /\ Ascii.eqb c "-" = false.
Proof.
  destruct u; try contradiction; intros _; simpl;
    eexists; eexists; repeat split.
Qed.

Lemma scan_nat_cons c s :
  Ascii.eqb c "0" = false -> PyStr.isdigit c = true ->
  scan_nat (String c s) =
  let (ds, rest) := span_digits (String c s) in
  match NilEmpty.uint_of_string ds with
  | Some u => Some (Z.of_uint u, rest)
  | None => None
  end.
Proof. intros Hz Hd. unfold scan_nat. rewrite Hz, Hd. reflexivity. Qed.

Lemma scan_nat_uint u rest :
  head_nonzero u -> follows rest = true ->
  scan_nat (NilEmpty.string_of_uint u ++ rest) = Some (Z.of_uint u, rest).
Proof.
  intros Hu Hf.
  destruct (string_of_uint_head u Hu) as (c & s & E & Hz & Hd & _).
  assert (Ea : (NilEmpty.string_of_uint u ++ rest)%string
               = String c (s ++ rest)) by (rewrite E; reflexivity).
  rewrite Ea, (scan_nat_cons _ _ Hz Hd), <- Ea.
  rewrite (span_digits_uint u rest Hf), NilEmpty.usu. reflexivity.
Qed.

Lemma starts_fraction_follows rest :
  follows rest = true -> starts_fraction rest = false.
Proof. intros Hf. follows_cases Hf; reflexivity. Qed.

(** An integer literal reads back as the integer. *)
Lemma scan_int_dumps n rest :
  follows rest = true ->
  scan_int (dumps_int n ++ rest) = Some (n, rest).
Proof.
  intros Hf. pose proof (starts_fraction_follows rest Hf) as Hfr.
  unfold dumps_int. destruct n as [|p|p]; simpl Z.to_int.
  - simpl. unfold scan_int. simpl. rewrite Hfr. reflexivity.
  - pose proof (pos_to_uint_head p) as Hu.
    assert (En : NilZero.string_of_int (Decimal.Pos (Pos.to_uint p))
                 = NilEmpty.string_of_uint (Pos.to_uint p)).
    { simpl. unfold NilZero.string_of_uint.
      destruct (Pos.to_uint p); [contradiction | reflexivity..]. }
    rewrite En. unfold scan_int.
    pose proof (scan_nat_uint _ rest Hu Hf) as Hs.
    destruct (string_of_uint_head _ Hu) as (c & s & E & _ & _ & Hm).
    assert (Ea : (NilEmpty.string_of_uint (Pos.to_uint p) ++ rest)%string
                 = String c (s ++ rest)) by (rewrite E; reflexivity).
    rewrite Ea in *. rewrite Hm, Hs, Hfr.
    f_equal. f_equal. change (Z.of_int (Z.to_int (Z.pos p)) = Z.pos p).
    apply DecimalZ.of_to.
  - pose proof (pos_to_uint_head p) as Hu.
    assert (En : NilZero.string_of_int (Decimal.Neg (Pos.to_uint p))
                 = String "-" (NilEmpty.string_of_uint (Pos.to_uint p))).
    { simpl. unfold NilZero.string_of_uint.
      destruct (Pos.to_uint p); [contradiction | reflexivity..]. }
    rewrite En. unfold scan_int. simpl append. cbn [Ascii.eqb Bool.eqb].
    rewrite (scan_nat_uint _ rest Hu Hf), Hfr.
    f_equal. f_equal. change (Z.of_int (Z.to_int (Z.neg p)) = Z.neg p).
    apply DecimalZ.of_to.
Qed.

(** The text of an integer starts with a digit or a minus sign. *)
Lemma dumps_int_head n :
  exists c s,
    dumps_int n = String c s
    /\ (Ascii.eqb c "-" || PyStr.isdigit c) = true.
Proof.
  unfold dumps_int. destruct n as [|p|p]; simpl Z.to_int.
  - eexists; eexists; split; reflexivity.
  - pose proof (pos_to_uint_head p) as Hu.
    destruct (string_of_uint_head _ Hu) as (c & s & E & _ & Hd & _).
    exists c, s. split; [|rewrite Hd; apply Bool.orb_true_r].
    rewrite <- E. simpl. unfold NilZero.string_of_uint.
    destruct (Pos.to_uint p); [contradiction | reflexivity..].
  - eexists; eexists; split; reflexivity.
Qed.

(** *** Nesting *)

Lemma head_is_append ok s t : head_is ok s -> head_is ok (s ++ t).
Proof. destruct s; simpl; [contradiction | auto]. Qed.

Lemma dumps_at_head level v : head_is value_head (dumps_at level v).
Proof.
  destruct v as [|[|]|n|s|[|x xs]|[|kv ms]]; try reflexivity.
  destruct (dumps_int_head n) as (c & s & E & Hc).
  simpl. rewrite E. simpl. revert Hc. clear.
  destruct c as [[|] [|] [|] [|] [|] [|] [|] [|]]; simpl; intros H;
    (reflexivity || discriminate).
Qed.

Lemma skip_ws_head s : head_is value_head s -> skip_ws s = s.
Proof.
  destruct s as [|c s]; simpl; [reflexivity|].
  unfold value_head. destruct (is_ws c); [discriminate | reflexivity].
Qed.

Lemma skip_ws_spaces n s : skip_ws (spaces n ++ s) = skip_ws s.
Proof. induction n as [|n IH]; simpl; [reflexivity | exact IH]. Qed.

Lemma skip_ws_newline_indent level s :
  skip_ws (newline_indent level ++ s) = skip_ws s.
Proof. unfold newline_indent. simpl. apply skip_ws_spaces. Qed.

Lemma follows_newline_indent level s :
  follows (newline_indent level ++ s) = true.
Proof. reflexivity. Qed.

Lemma dumps_at_arr level x xs :
  dumps_at level (JArr (x :: xs)) =
  String "[" (newline_indent (S level)
              ++ items_text level (x :: xs)
              ++ newline_indent level ++ "]")%string.
Proof. reflexivity. Qed.

Lemma dumps_at_obj level kv ms :
  dumps_at level (JObj (kv :: ms)) =
  String "{" (newline_indent (S level)
              ++ members_text level (kv :: ms)
              ++ newline_indent level ++ "}")%string.
Proof. reflexivity. Qed.

Lemma items_text_cons level x y ys :
  items_text level (x :: y :: ys) =
  (dumps_at (S level) x
   ++ String "," (newline_indent (S level) ++ items_text level (y :: ys)))%string.
Proof. reflexivity. Qed.

Lemma members_text_cons level x y ys :
  members_text level (x :: y :: ys) =
  (member_text level x
   ++ String "," (newline_indent (S level)
                  ++ members_text level (y :: ys)))%string.
Proof. reflexivity. Qed.

Lemma items_text_head level x xs :
  head_is value_head (items_text level (x :: xs)).
Proof.
  destruct xs as [|y ys].
  - apply dumps_at_head.
  - rewrite items_text_cons. apply head_is_append, dumps_at_head.
Qed.

Lemma scan_items_eq fuel s :
  scan_items (S fuel) s =
  match scan_value fuel s with
  | None => None
  | Some (v, r) =>
      match skip_ws r with
      | EmptyString => None
      | String c r1 =>
          if Ascii.eqb c "," then
            match scan_items fuel (skip_ws r1) with
            | Some (vs, rest) => Some (v :: vs, rest)
            | None => None
            end
          else if Ascii.eqb c "]" then Some ([v], r1)
          else None
      end
  end.
Proof. reflexivity. Qed.

Lemma items_text_cons_app level x y ys tail :
  (items_text level (x :: y :: ys) ++ tail)%string =
  (dumps_at (S level) x
   ++ String "," (newline_indent (S level)
                  ++ items_text level (y :: ys) ++ tail))%string.
Proof.
  rewrite items_text_cons, append_assoc. f_equal.
  change (String "," (newline_indent (S level) ++ items_text level (y :: ys))
          ++ tail)%string
    with (String "," ((newline_indent (S level)
                       ++ items_text level (y :: ys)) ++ tail))%string.
  rewrite append_assoc. reflexivity.
Qed.

Lemma skip_ws_comma s : skip_ws (String "," s) = String "," s.
Proof. reflexivity. Qed.

Lemma scan_items_text items :
  items <> [] -> Forall reads_back items ->
  forallb well_formed items = true ->
  forall level rest fuel,
    (list_sum (map (fun x => S (size x)) items) <= fuel)%nat ->
    scan_items fuel
      (items_text level items ++ newline_indent level ++ String "]" rest)
    = Some (items, rest).
Proof.
  intros Hne Hall. induction Hall as [|x xs Hx Hxs IH]; [contradiction|].
  clear Hne. intros Hwf level rest fuel Hfuel.
  simpl in Hwf. apply Bool.andb_true_iff in Hwf. destruct Hwf as (Hwx & Hwxs).
  simpl in Hfuel. destruct fuel as [|fuel]; [lia|].
  rewrite scan_items_eq. destruct xs as [|y ys].
  - change (items_text level [x]) with (dumps_at (S level) x).
    rewrite (Hx Hwx) by (simpl in *; first [lia | reflexivity]).
    rewrite skip_ws_newline_indent. reflexivity.
  - rewrite items_text_cons_app.
    rewrite (Hx Hwx) by (simpl in *; first [lia | reflexivity]).
    rewrite skip_ws_comma, Ascii.eqb_refl, skip_ws_newline_indent.
    rewrite skip_ws_head by apply head_is_append, items_text_head.
    rewrite IH; [reflexivity | discriminate | exact Hwxs |].
    simpl in *. lia.
Qed.

Lemma member_text_app level k v tail :
  (member_text level (k, v) ++ tail)%string =
  String dquote
    (escape k
     ++ String dquote
          (String ":" (String " " (dumps_at (S level) v ++ tail))))%string.
Proof.
  unfold member_text, quote. simpl fst. simpl snd.
  cbn [append]. rewrite !append_assoc. cbn [append].
  reflexivity.
Qed.

Lemma scan_members_member fuel level k v tail :
  reads_back v -> well_formed v = true -> (size v <= fuel)%nat ->
  follows tail = true ->
  scan_members (S fuel) (member_text level (k, v) ++ tail) =
  match skip_ws tail with
  | EmptyString => None
  | String c r =>
      if Ascii.eqb c "," then
        match scan_members fuel (skip_ws r) with
        | Some (ms, rest) => Some ((k, v) :: ms, rest)
        | None => None
        end
      else if Ascii.eqb c "}" then Some ([(k, v)], r)
      else None
  end.
Proof.
  intros Hv Hw Hfuel Hf. rewrite member_text_app.
  cbn [scan_members]. rewrite Ascii.eqb_refl. cbn [negb].
  rewrite scan_string_escape.
  change (skip_ws (String ":" ?s)) with (String ":" s).
  cbv iota. rewrite Ascii.eqb_refl. cbn [negb].
  change (skip_ws (String " " (dumps_at (S level) v ++ tail)))
    with (skip_ws (dumps_at (S level) v ++ tail)).
  rewrite skip_ws_head by apply head_is_append, dumps_at_head.
  rewrite (Hv Hw) by assumption. reflexivity.
Qed.

Lemma members_text_head level kv ms :
  head_is value_head (members_text level (kv :: ms)).
Proof. destruct ms; reflexivity. Qed.

Lemma members_text_cons_app level x y ys tail :
  (members_text level (x :: y :: ys) ++ tail)%string =
  (member_text level x
   ++ String "," (newline_indent (S level)
                  ++ members_text level (y :: ys) ++ tail))%string.
Proof.
  rewrite members_text_cons, append_assoc. f_equal.
  change (String ","
            (newline_indent (S level) ++ members_text level (y :: ys))
          ++ tail)%string
    with (String "," ((newline_indent (S level)
                       ++ members_text level (y :: ys)) ++ tail))%string.
  rewrite append_assoc. reflexivity.
Qed.

Lemma scan_members_text members :
  members <> [] -> Forall (fun kv => reads_back (snd kv)) members ->
  forallb (fun kv => well_formed (snd kv)) members = true ->
  forall level rest fuel,
    (list_sum (map (fun kv => S (size (snd kv))) members) <= fuel)%nat ->
    scan_members fuel
      (members_text level members
       ++ newline_indent level ++ String "}" rest)
    = Some (members, rest).
Proof.
  intros Hne Hall.
  induction Hall as [|[k v] ms Hv Hms IH]; [contradiction|].
  clear Hne. intros Hwf level rest fuel Hfuel.
  simpl in Hwf, Hv. apply Bool.andb_true_iff in Hwf.
  destruct Hwf as (Hwv & Hwms).
  simpl in Hfuel. destruct fuel as [|fuel]; [lia|].
  destruct ms as [|y ys].
  - change (members_text level [(k, v)]) with (member_text level (k, v)).
    rewrite (scan_members_member fuel level k v _ Hv Hwv)
      by (simpl in *; first [lia | reflexivity]).
    rewrite skip_ws_newline_indent. reflexivity.
  - rewrite members_text_cons_app.
    rewrite (scan_members_member fuel level k v _ Hv Hwv)
      by (simpl in *; first [lia | reflexivity]).
    rewrite skip_ws_comma, Ascii.eqb_refl, skip_ws_newline_indent.
    rewrite skip_ws_head by apply head_is_append, members_text_head.
    rewrite IH; [reflexivity | discriminate | exact Hwms |].
    simpl in *. lia.
Qed.

(** *** Dictionaries built from distinct keys *)

Lemma dict_set_fresh key v d :
  existsb (String.eqb key) (map fst d) = false ->
  dict_set key v d = d ++ [(key, v)].
Proof.
  induction d as [|[k v'] d IH]; simpl; [reflexivity|].
  intros H. apply Bool.orb_false_iff in H. destruct H as (Hk & Hd).
  rewrite String.eqb_sym, Hk, (IH Hd). reflexivity.
Qed.

Lemma existsb_app_false {A : Type} (f : A -> bool) l l' :
  existsb f (l ++ l') = false <->
  existsb f l = false /\ existsb f l' = false.
Proof. rewrite existsb_app. apply Bool.orb_false_iff. Qed.

Lemma fold_dict_set_distinct pairs acc :
  distinct (map fst acc ++ map fst pairs) = true ->
  fold_left (fun d kv => dict_set (fst kv) (snd kv) d) pairs acc
  = acc ++ pairs.
Proof.
  revert acc. induction pairs as [|[k v] pairs IH]; intros acc H; simpl.
  - symmetry. apply app_nil_r.
  - assert (Hk : existsb (String.eqb k) (map fst acc) = false).
    { clear IH. induction acc as [|[k' v'] acc IHa]; [reflexivity|].
      simpl in *. apply Bool.andb_true_iff in H. destruct H as (Hh & Ht).
      apply Bool.negb_true_iff in Hh.
      apply existsb_app_false in Hh. destruct Hh as (_ & Hh).
      simpl in Hh. apply Bool.orb_false_iff in Hh. destruct Hh as (Hh & _).
      rewrite String.eqb_sym, Hh. simpl. apply IHa. exact Ht. }
    rewrite (dict_set_fresh _ _ _ Hk).
    rewrite IH.
    + rewrite <- app_assoc. reflexivity.
    + rewrite map_app, <- app_assoc. exact H.
Qed.

Lemma dict_of_pairs_distinct pairs :
  distinct (map fst pairs) = true -> dict_of_pairs pairs = pairs.
Proof. intros H. apply (fold_dict_set_distinct pairs []). exact H. Qed.

(** *** Every value reads back *)

Lemma scan_value_number fuel c s :
  Ascii.eqb c "-" || PyStr.isdigit c = true ->
  scan_value (S fuel) (String c s) =
  match scan_int (String c s) with
  | Some (n, rest) => Some (JNum n, rest)
  | None => None
  end.
Proof.
  destruct c as [[|] [|] [|] [|] [|] [|] [|] [|]]; intros H;
    try discriminate H; reflexivity.
Qed.

Lemma head_not_closing s :
  head_is value_head s ->
  exists c r, s = String c r
              /\ Ascii.eqb c "]" = false /\ Ascii.eqb c "}" = false.
Proof.
  destruct s as [|c r]; simpl; [contradiction|]. unfold value_head.
  intros H. apply Bool.andb_true_iff in H. destruct H as (H & Hb).
  apply Bool.andb_true_iff in H. destruct H as (_ & Ha).
  apply Bool.negb_true_iff in Ha, Hb. eauto.
Qed.

Lemma nest_app (open : ascii) (a b c rest : string) :
  (String open (a ++ b ++ c) ++ rest)%string
  = String open (a ++ b ++ c ++ rest)%string.
Proof. cbn [append]. rewrite !append_assoc. reflexivity. Qed.

Theorem scan_value_dumps v : reads_back v.
Proof.
  induction v as [|b|n|s|items IH|members IH] using json_ind;
    intros Hwf level rest fuel Hfuel Hf;
    (destruct fuel as [|fuel]; [simpl in Hfuel; lia|]).
  - reflexivity.
  - destruct b; reflexivity.
  - destruct (dumps_int_head n) as (c & s & E & Hc).
    pose proof (scan_int_dumps n rest Hf) as Hs.
    change (dumps_at level (JNum n)) with (dumps_int n).
    assert (Ea : (dumps_int n ++ rest)%string = String c (s ++ rest))
      by (rewrite E; reflexivity).
    rewrite Ea in *. rewrite (scan_value_number _ _ _ Hc), Hs. reflexivity.
  - destruct (scan_string_quote s rest) as (body & E & Hs).
    change (dumps_at level (JStr s)) with (quote s).
    rewrite E. cbn [scan_value]. rewrite Ascii.eqb_refl, Hs. reflexivity.
  - destruct items as [|x xs]; [reflexivity|].
    rewrite dumps_at_arr, nest_app, (append_assoc (newline_indent level)).
    cbn [scan_value]. change (Ascii.eqb "[" dquote) with false.
    change (Ascii.eqb "[" "{") with false. cbv iota.
    rewrite Ascii.eqb_refl, skip_ws_newline_indent.
    assert (Hh : head_is value_head
                   (items_text level (x :: xs)
                    ++ newline_indent level ++ "]" ++ rest)%string)
      by apply head_is_append, items_text_head.
    rewrite (skip_ws_head _ Hh).
    pose proof (scan_items_text (x :: xs) ltac:(discriminate) IH Hwf
                  level rest fuel ltac:(simpl in *; lia)) as Hs.
    change ("]" ++ rest)%string with (String "]" rest) in *.
    destruct (head_not_closing _ Hh) as (c & r & E & Hc & _).
    rewrite E in *. rewrite Hc, Hs. reflexivity.
  - destruct members as [|kv ms]; [reflexivity|].
    change (distinct (map fst (kv :: ms))
            && forallb (fun kv => well_formed (snd kv)) (kv :: ms) = true)
      in Hwf.
    apply Bool.andb_true_iff in Hwf. destruct Hwf as (Hkeys & Hwf).
    rewrite dumps_at_obj, nest_app, (append_assoc (newline_indent level)).
    cbn [scan_value]. change (Ascii.eqb "{" dquote) with false. cbv iota.
    rewrite Ascii.eqb_refl, skip_ws_newline_indent.
    assert (Hh : head_is value_head
                   (members_text level (kv :: ms)
                    ++ newline_indent level ++ "}" ++ rest)%string)
      by apply head_is_append, members_text_head.
    rewrite (skip_ws_head _ Hh).
    pose proof (scan_members_text (kv :: ms) ltac:(discriminate) IH Hwf
                  level rest fuel ltac:(simpl in *; lia)) as Hs.
    change ("}" ++ rest)%string with (String "}" rest) in *.
    destruct (head_not_closing _ Hh) as (c & r & E & _ & Hc).
    rewrite E in *. rewrite Hc, Hs.
    rewrite (dict_of_pairs_distinct _ Hkeys). reflexivity.
Qed.

(** *** Enough fuel *)

Lemma length_append s t :
  String.length (s ++ t) = (String.length s + String.length t)%nat.
Proof. induction s as [|c s IH]; simpl; [|rewrite IH]; reflexivity. Qed.

Lemma length_newline_indent level :
  (1 <= String.length (newline_indent level))%nat.
Proof. unfold newline_indent. simpl. lia. Qed.

Lemma size_items_bound level items :
  items <> [] ->
  Forall (fun x => forall level,
            (size x <= 2 * String.length (dumps_at level x) + 1)%nat) items ->
  (list_sum (map (fun x => S (size x)) items)
   <= 2 * String.length (items_text level items) + 2)%nat.
Proof.
  intros Hne Hall. induction Hall as [|x xs Hx _ IH]; [contradiction|].
  clear Hne. destruct xs as [|y ys].
  - specialize (Hx (S level)).
    change (items_text level [x]) with (dumps_at (S level) x). simpl. lia.
  - rewrite items_text_cons, length_append.
    cbn [String.length]. rewrite length_append.
    specialize (Hx (S level)).
    specialize (IH ltac:(discriminate)).
    pose proof (length_newline_indent (S level)).
    change (list_sum (map (fun x => S (size x)) (x :: y :: ys)))
      with (S (size x) + list_sum (map (fun x => S (size x)) (y :: ys)))%nat.
    lia.
Qed.

Lemma length_member_text level kv :
  (String.length (dumps_at (S level) (snd kv)) + 2
   <= String.length (member_text level kv))%nat.
Proof.
  unfold member_text. rewrite !length_append. simpl. lia.
Qed.

Lemma size_members_bound level members :
  members <> [] ->
  Forall (fun kv => forall level,
            (size (snd kv)
             <= 2 * String.length (dumps_at level (snd kv)) + 1)%nat)
         members ->
  (list_sum (map (fun kv => S (size (snd kv))) members)
   <= 2 * String.length (members_text level members) + 2)%nat.
Proof.
  intros Hne Hall. induction Hall as [|x xs Hx _ IH]; [contradiction|].
  clear Hne. pose proof (length_member_text level x) as Hm.
  specialize (Hx (S level)). destruct xs as [|y ys].
  - change (members_text level [x]) with (member_text level x).
    change (list_sum (map (fun kv => S (size (snd kv))) [x]))
      with (S (size (snd x)) + 0)%nat.
    lia.
  - rewrite members_text_cons, length_append.
    cbn [String.length]. rewrite length_append.
    specialize (IH ltac:(discriminate)).
    pose proof (length_newline_indent (S level)).
    change (list_sum (map (fun kv => S (size (snd kv))) (x :: y :: ys)))
      with (S (size (snd x))
            + list_sum (map (fun kv => S (size (snd kv))) (y :: ys)))%nat.
    lia.
Qed.

Lemma size_bound v level :
  (size v <= 2 * String.length (dumps_at level v) + 1)%nat.
Proof.
  revert level.
  induction v as [|b|n|s|items IH|members IH] using json_ind;
    intros level; try (simpl; lia).
  - destruct items as [|x xs]; [simpl; lia|].
    pose proof (size_items_bound level (x :: xs) ltac:(discriminate) IH).
    rewrite dumps_at_arr. cbn [String.length size].
    rewrite !length_append.
    pose proof (length_newline_indent (S level)). lia.
  - destruct members as [|kv ms]; [simpl; lia|].
    pose proof (size_members_bound level (kv :: ms) ltac:(discriminate) IH).
    rewrite dumps_at_obj. cbn [String.length size].
    rewrite !length_append.
    pose proof (length_newline_indent (S level)). lia.
Qed.

(** [json.loads(json.dumps(v, indent=4)) == v] *)
Theorem loads_dumps v : well_formed v = true -> loads (dumps v) = Some v.
Proof.
  intros Hwf. unfold loads, dumps.
  rewrite (skip_ws_head _ (dumps_at_head 0%nat v)).
  rewrite <- (append_nil_r (dumps_at 0%nat v)) at 2.
  rewrite (scan_value_dumps v Hwf 0%nat "");
    [reflexivity | | reflexivity].
  pose proof (size_bound v 0%nat). lia.
Qed.

End JsonFacts.

(** ** Saving, then loading *)

Lemma fs_write_same path data fs : fs_write path data fs path = Some data.
Proof. unfold fs_write. rewrite String.eqb_refl. reflexivity. Qed.

Lemma fs_write_other path data fs p :
  p <> path -> fs_write path data fs p = fs p.
Proof.
  intros H. unfold fs_write.
  destruct (String.eqb_spec p path); [contradiction | reflexivity].
Qed.

(** Saving overwrites the store file and touches no other file. *)
Lemma save_entries_files json_dumps entries fs :
  save_entries json_dumps entries fs STORAGE_FILE
  = Some (json_dumps (JArr (map JObj entries)))
  /\ forall p, p <> STORAGE_FILE ->
               save_entries json_dumps entries fs p = fs p.
Proof.
  split; [apply fs_write_same|]. intros p H. apply fs_write_other. exact H.
Qed.

Lemma map_backfill_id entries :
  Forall (has_fields defaulted_fields) entries ->
  map backfill entries = entries.
Proof.
  induction 1 as [|d ds Hd _ IH]; simpl; [reflexivity|].
  rewrite (backfill_id d Hd), IH. reflexivity.
Qed.

Lemma has_all_defaulted d :
  has_all_fields d -> has_fields defaulted_fields d.
Proof.
  intros H key Hin. apply H. simpl in *.
  destruct Hin as [<-|[<-|[<-|[<-|[]]]]]; auto 8.
Qed.

(** With any JSON library that reads this document back as written,
    loading after saving returns the saved entries. *)
Lemma save_then_load_with
    (json_loads : string -> option json) (json_dumps : json -> string)
    (entries : list dict) (fs : filesystem) :
  json_loads (json_dumps (JArr (map JObj entries)))
  = Some (JArr (map JObj entries)) ->
  Forall (has_fields defaulted_fields) entries ->
  load_entries json_loads (save_entries json_dumps entries fs) = Ok entries.
Proof.
  intros Hrt Hall. unfold load_entries, save_entries.
  rewrite fs_write_same, Hrt, backfill_all_dicts, (map_backfill_id _ Hall).
  reflexivity.
Qed.

(** With the JSON text format of this file the document does read back
    as written, so the four defaulted fields are all that is needed. *)
Lemma save_then_load_defaulted (entries : list dict) (fs : filesystem) :
  Json.well_formed (JArr (map JObj entries)) = true ->
  Forall (has_fields defaulted_fields) entries ->
  load_entries Json.loads (save_entries Json.dumps entries fs) = Ok entries.
Proof.
  intros Hwf Hall. apply save_then_load_with; [|exact Hall].
  apply JsonFacts.loads_dumps. exact Hwf.
Qed.

(** C4: saving a list of entries that have all their fields and loading
    the store again returns the same entries, in the same order, with
    the same fields and values.  (A Python dictionary binds no key
    twice: that is what [well_formed] says of the model's values.) *)
Theorem save_then_load (entries : list dict) (fs : filesystem) :
  Json.well_formed (JArr (map JObj entries)) = true ->
  Forall has_all_fields entries ->
  load_entries Json.loads (save_entries Json.dumps entries fs) = Ok entries.
Proof.
  intros Hwf Hall. apply save_then_load_defaulted; [exact Hwf|].
  eapply Forall_impl; [|exact Hall]. exact has_all_defaulted.
Qed.

Lemma save_then_load_witness :
  let entries :=
    [ entry_on (mkdate 2024 1 1) "Plans" "Health, Work";
      entry_on (mkdate 2024 1 5) "" "" ] in
  load_entries Json.loads (save_entries Json.dumps entries no_files)
  = Ok entries.
Proof.
  intros entries. apply (save_then_load entries no_files).
  - reflexivity.
  - repeat constructor; apply new_entry_has_all_fields.
Defined.

(** The save button followed by a fresh run of the script: the new
    entry is the last one loaded. *)
Lemma save_entry_then_load f entries fs :
  Json.well_formed (JArr (map JObj entries)) = true ->
  Forall has_all_fields entries ->
  exists entry,
    load_entries Json.loads (snd (save_entry Json.dumps f entries fs))
    = Ok (entries ++ [entry])
    /\ dict_lookup "title" entry = Some (JStr (str_or (title f) "Untitled"))
    /\ dict_lookup "username" entry
       = Some (JStr (str_or (username f) "Unknown User")).
Proof.
  intros Hwf Hall. unfold save_entry.
  assert (Hnew : forall image_path,
             (image_path = JNull \/ exists p, image_path = JStr p) ->
             Json.well_formed
               (JArr (map JObj (entries ++ [new_entry f image_path]))) = true).
  { intros image_path Hi. cbn [Json.well_formed] in *.
    rewrite map_app, forallb_app, Hwf.
    assert (Ht : forallb Json.well_formed
                   (map JStr (tags_list (tags_input f))) = true).
    { induction (tags_list (tags_input f)); simpl; auto. }
    destruct Hi as [->|(p & ->)]; simpl; rewrite Ht; reflexivity. }
  destruct (uploaded_image f) as [[name bytes]|];
    [exists (new_entry f (JStr ("uploaded_images/" ++ name)))
    |exists (new_entry f JNull)];
    (split; [|split; reflexivity]);
    cbn [snd]; apply save_then_load_defaulted;
    try (apply Hnew; eauto);
    (apply Forall_app; split;
       [eapply Forall_impl; [|exact Hall]; exact has_all_defaulted|]);
    repeat constructor; apply has_all_defaulted, new_entry_has_all_fields.
Qed.

(** * Further properties *)

(** ** What the reader builds is well-formed *)

Module ReaderFacts.
Import Json.

Lemma existsb_eqb_app key ks ks' :
  existsb (String.eqb key) (ks ++ ks') =
  existsb (String.eqb key) ks || existsb (String.eqb key) ks'.
Proof. apply existsb_app. Qed.

(** Assigning to a key keeps the keys distinct. *)
Lemma dict_set_keys key v d :
  map fst (dict_set key v d) = map fst d
  \/ (map fst (dict_set key v d) = map fst d ++ [key]
      /\ existsb (String.eqb key) (map fst d) = false).
Proof.
  induction d as [|[k v'] d IH]; cbn [dict_set map fst].
  - right. split; reflexivity.
  - destruct (String.eqb_spec k key) as [->|Hne]; cbn [map fst].
    + left. reflexivity.
    + destruct IH as [IH|(IH & Hk)]; rewrite IH.
      * left. reflexivity.
      * right. split; [reflexivity|]. cbn [existsb].
        destruct (String.eqb_spec key k); [congruence | exact Hk].
Qed.

Lemma distinct_snoc ks key :
  distinct ks = true -> existsb (String.eqb key) ks = false ->
  distinct (ks ++ [key]) = true.
Proof.
  induction ks as [|k ks IH]; simpl; [reflexivity|].
  intros Hd Hk. apply Bool.andb_true_iff in Hd. destruct Hd as (Hh & Ht).
  apply Bool.orb_false_iff in Hk. destruct Hk as (Hkk & Hk).
  rewrite existsb_eqb_app. simpl.
  apply Bool.negb_true_iff in Hh. rewrite Hh. simpl.
  rewrite String.eqb_sym, Hkk. simpl. apply IH; assumption.
Qed.

Lemma dict_set_distinct key v d :
  distinct (map fst d) = true -> distinct (map fst (dict_set key v d)) = true.
Proof.
  intros Hd. destruct (dict_set_keys key v d) as [->|(-> & Hk)];
    [exact Hd | apply distinct_snoc; assumption].
Qed.

Lemma dict_set_values key v d :
  forallb (fun kv => well_formed (snd kv)) d = true ->
  well_formed v = true ->
  forallb (fun kv => well_formed (snd kv)) (dict_set key v d) = true.
Proof.
  intros Hd Hv. induction d as [|[k v'] d IH]; simpl in *.
  - rewrite Hv. reflexivity.
  - apply Bool.andb_true_iff in Hd. destruct Hd as (Hh & Ht).
    destruct (String.eqb k key); simpl.
    + rewrite Hv, Ht. reflexivity.
    + rewrite Hh, (IH Ht). reflexivity.
Qed.

Lemma dict_of_pairs_well_formed pairs :
  forallb (fun kv => well_formed (snd kv)) pairs = true ->
  well_formed (JObj (dict_of_pairs pairs)) = true.
Proof.
  unfold dict_of_pairs.
  assert (H : forall acc,
             well_formed (JObj acc) = true ->
             forallb (fun kv => well_formed (snd kv)) pairs = true ->
             well_formed
               (JObj (fold_left (fun d kv => dict_set (fst kv) (snd kv) d)
                                pairs acc)) = true).
  { induction pairs as [|[k v] pairs IH]; intros acc Hacc Hp; simpl in *.
    - exact Hacc.
    - apply Bool.andb_true_iff in Hp. destruct Hp as (Hv & Hp).
      apply Bool.andb_true_iff in Hacc. destruct Hacc as (Hk & Hvals).
      apply IH; [|exact Hp]. apply Bool.andb_true_iff. split.
      + apply dict_set_distinct. exact Hk.
      + apply dict_set_values; assumption. }
  intros Hp. apply H; [reflexivity | exact Hp].
Qed.

Ltac split_match H :=
  match type of H with
  | context [match ?x with _ => _ end] =>
      let E := fresh "E" in destruct x eqn:E; try discriminate H
  end.

Lemma scan_well_formed fuel :
  (forall s v r, scan_value fuel s = Some (v, r) -> well_formed v = true)
  /\ (forall s vs r,
         scan_items fuel s = Some (vs, r) -> forallb well_formed vs = true)
  /\ (forall s ms r,
         scan_members fuel s = Some (ms, r) ->
         forallb (fun kv => well_formed (snd kv)) ms = true).
Proof.
  induction fuel as [|fuel (IHv & IHi & IHm)];
    [repeat split; discriminate|].
  split; [|split].
  - intros s v r H. cbn [scan_value] in H.
    destruct s as [|c s]; [discriminate|].
    repeat split_match H; try (injection H as <- _; reflexivity).
    + injection H as <- _. apply dict_of_pairs_well_formed.
      eapply IHm. eassumption.
    + injection H as <- _. simpl. eapply IHi. eassumption.
    + unfold option_map in H. split_match H. injection H as <- _.
      reflexivity.
    + unfold option_map in H. split_match H. injection H as <- _.
      reflexivity.
    + unfold option_map in H. split_match H. injection H as <- _.
      reflexivity.
  - intros s vs r H. cbn [scan_items] in H.
    repeat split_match H; injection H as <- _; simpl.
    + erewrite IHv by eassumption. eapply IHi. eassumption.
    + erewrite IHv by eassumption. reflexivity.
  - intros s ms r H. cbn [scan_members] in H.
    repeat split_match H; injection H as <- _; simpl.
    + erewrite IHv by eassumption. eapply IHm. eassumption.
    + erewrite IHv by eassumption. reflexivity.
Qed.

(** [json.loads] never returns a dictionary that binds a key twice. *)
Lemma loads_well_formed s v : loads s = Some v -> well_formed v = true.
Proof.
  unfold loads. intros H.
  destruct (scan_value _ _) as [[v' r]|] eqn:E; [|discriminate].
  destruct (skip_ws r); [|discriminate]. injection H as <-.
  eapply (proj1 (scan_well_formed _)). exact E.
Qed.

End ReaderFacts.

(** ** More on the entry store *)

Lemma setdefault_appends key default d :
  exists tail,
    setdefault key default d = d ++ tail
    /\ (tail = []
        \/ (tail = [(key, default)] /\ dict_lookup key d = None)).
Proof.
  unfold setdefault. destruct (dict_lookup key d) eqn:E.
  - exists []. split; [symmetry; apply app_nil_r | left; reflexivity].
  - exists [(key, default)]. split; [reflexivity | right; split; reflexivity].
Qed.

Lemma dict_lookup_app_none key d d' :
  dict_lookup key (d ++ d') = None -> dict_lookup key d = None.
Proof.
  rewrite dict_lookup_app. destruct (dict_lookup key d); [discriminate|].
  reflexivity.
Qed.

(** Back-filling only appends: the stored bindings stay in front, in
    their order, and each appended binding is the default of a field
    that was missing. *)
Lemma backfill_appends d :
  exists tail,
    backfill d = d ++ tail
    /\ Forall (fun kv => dict_lookup (fst kv) d = None
                         /\ default_of (fst kv) = Some (snd kv)) tail.
Proof.
  unfold backfill.
  destruct (setdefault_appends "title" (JStr "Untitled") d) as (t1 & -> & H1).
  destruct (setdefault_appends "tags" (JArr []) (d ++ t1)) as (t2 & -> & H2).
  destruct (setdefault_appends "username" (JStr "Unknown User")
              ((d ++ t1) ++ t2)) as (t3 & -> & H3).
  destruct (setdefault_appends "image" JNull (((d ++ t1) ++ t2) ++ t3))
    as (t4 & -> & H4).
  exists (t1 ++ t2 ++ t3 ++ t4). split; [rewrite <- !app_assoc; reflexivity|].
  repeat (apply Forall_app; split).
  - destruct H1 as [->|(-> & E)]; repeat constructor. exact E.
  - destruct H2 as [->|(-> & E)]; repeat constructor.
    apply dict_lookup_app_none in E. exact E.
  - destruct H3 as [->|(-> & E)]; repeat constructor.
    do 2 apply dict_lookup_app_none in E. exact E.
  - destruct H4 as [->|(-> & E)]; repeat constructor.
    do 3 apply dict_lookup_app_none in E. exact E.
Qed.

Lemma lookup_none_keys key d :
  dict_lookup key d = None ->
  existsb (String.eqb key) (map fst d) = false.
Proof.
  induction d as [|[k v] d IH]; simpl; [reflexivity|].
  destruct (String.eqb_spec k key) as [->|Hne]; [discriminate|].
  intros H. rewrite (IH H).
  destruct (String.eqb_spec key k); [congruence | reflexivity].
Qed.

Lemma setdefault_well_formed key default d :
  Json.well_formed default = true ->
  Json.well_formed (JObj d) = true ->
  Json.well_formed (JObj (setdefault key default d)) = true.
Proof.
  intros Hdef Hd. unfold setdefault.
  destruct (dict_lookup key d) eqn:E; [exact Hd|].
  cbn [Json.well_formed] in *.
  apply Bool.andb_true_iff in Hd. destruct Hd as (Hk & Hv).
  rewrite map_app, forallb_app, Hv. simpl. rewrite Hdef.
  rewrite ReaderFacts.distinct_snoc;
    [reflexivity | exact Hk | apply lookup_none_keys; exact E].
Qed.

Lemma backfill_well_formed d :
  Json.well_formed (JObj d) = true ->
  Json.well_formed (JObj (backfill d)) = true.
Proof.
  intros H. unfold backfill.
  repeat apply setdefault_well_formed; try reflexivity. exact H.
Qed.

Lemma well_formed_entries ds :
  Json.well_formed (JArr (map JObj ds)) = true <->
  Forall (fun d => Json.well_formed (JObj d) = true) ds.
Proof.
  cbn [Json.well_formed]. rewrite forallb_forall, Forall_forall. split.
  - intros H d Hd. apply (H (JObj d)). apply in_map. exact Hd.
  - intros H v Hv. apply in_map_iff in Hv. destruct Hv as (d & <- & Hd).
    apply H. exact Hd.
Qed.

(** What [load_entries] returns from a file read with [Json.loads]:
    dictionaries with distinct keys that have the four defaulted
    fields. *)
Lemma loaded_store fs es :
  load_entries Json.loads fs = Ok es ->
  Json.well_formed (JArr (map JObj es)) = true
  /\ Forall (has_fields defaulted_fields) es.
Proof.
  intros H. split.
  - unfold load_entries in H.
    destruct (fs STORAGE_FILE) as [text|];
      [|injection H as <-; reflexivity].
    destruct (Json.loads text) as [v|] eqn:El;
      [|injection H as <-; reflexivity].
    pose proof (ReaderFacts.loads_well_formed _ _ El) as Hv.
    destruct v; try (injection H as <-; reflexivity).
    destruct (backfill_all_ok _ _ H) as (ds & -> & ->).
    apply well_formed_entries. apply well_formed_entries in Hv.
    apply Forall_forall. intros e He. apply in_map_iff in He.
    destruct He as (d & <- & Hd). apply backfill_well_formed.
    rewrite Forall_forall in Hv. apply Hv. exact Hd.
  - destruct (load_entries_ok _ _ _ H) as (ds & ->).
    apply Forall_forall. intros e He. apply in_map_iff in He.
    destruct He as (d & <- & _). apply backfill_has_defaulted.
Qed.

(** X1: when [json.load] returns a list for the store file,
    [load_entries] raises [AttributeError] exactly when some element of
    the list is not a dictionary. *)
Theorem load_entries_attribute_error
    (json_loads : string -> option json) (fs : filesystem)
    (text : string) (items : list json) :
  fs STORAGE_FILE = Some text ->
  json_loads text = Some (JArr items) ->
  (load_entries json_loads fs = Raise AttributeError <->
   exists v, In v items /\ forall d, v <> JObj d).
Proof.
  intros Hf Hl. unfold load_entries. rewrite Hf, Hl. split.
  - intros H. clear Hl. induction items as [|x items IH]; simpl in H;
      [discriminate|].
    destruct x;
      try (eexists; split; [left; reflexivity | discriminate]).
    destruct (backfill_all items) as [rest|e]; [discriminate|].
    destruct (IH H) as (v & Hin & Hv). exists v. split; [right|]; auto.
  - apply backfill_all_raises.
Qed.

Lemma load_entries_attribute_error_witness :
  load_entries Json.loads (only_store "[{}, null]") = Raise AttributeError.
Proof.
  apply (load_entries_attribute_error Json.loads (only_store "[{}, null]")
           "[{}, null]" [JObj []; JNull] eq_refl eq_refl).
  exists JNull. split; [simpl; auto | discriminate].
Defined.

(** X2: loading never drops, reorders or changes what is stored: the
    result has one entry per stored dictionary, in the same order, and
    each is the stored dictionary followed by the defaults of the fields
    it lacked, so that every stored binding is read back unchanged. *)
Theorem load_entries_keeps_stored
    (json_loads : string -> option json) (fs : filesystem)
    (text : string) (ds : list dict) :
  fs STORAGE_FILE = Some text ->
  json_loads text = Some (JArr (map JObj ds)) ->
  exists es,
    load_entries json_loads fs = Ok es
    /\ List.length es = List.length ds
    /\ forall i d,
         nth_error ds i = Some d ->
         exists tail,
           nth_error es i = Some (d ++ tail)
           /\ (forall key v,
                  dict_lookup key d = Some v ->
                  dict_lookup key (d ++ tail) = Some v)
           /\ Forall (fun kv => dict_lookup (fst kv) d = None
                                /\ default_of (fst kv) = Some (snd kv)) tail.
Proof.
  intros Hf Hl. exists (map backfill ds). split; [|split].
  - unfold load_entries. rewrite Hf, Hl. apply backfill_all_dicts.
  - apply length_map.
  - intros i d Hi. destruct (backfill_appends d) as (tail & E & Ht).
    exists tail. split; [|split].
    + rewrite nth_error_map, Hi. simpl. rewrite E. reflexivity.
    + intros key v Hk. rewrite dict_lookup_app, Hk. reflexivity.
    + exact Ht.
Qed.

Lemma load_entries_keeps_stored_witness :
  let stored := [("text", JStr "hello"); ("tags", JArr [JStr "a"])] in
  exists es tail,
    load_entries Json.loads
      (only_store (Json.dumps (JArr [JObj stored]))) = Ok es
    /\ nth_error es 0 = Some (stored ++ tail).
Proof.
  intros stored.
  destruct (load_entries_keeps_stored Json.loads
              (only_store (Json.dumps (JArr [JObj stored])))
              (Json.dumps (JArr [JObj stored])) [stored] eq_refl eq_refl)
    as (es & Hload & _ & Hnth).
  destruct (Hnth 0%nat stored eq_refl) as (tail & Ht & _).
  exists es, tail. split; assumption.
Defined.

(** Whatever [load_entries] returns has the four defaulted fields. *)
Lemma loaded_has_defaulted (json_loads : string -> option json) fs es :
  load_entries json_loads fs = Ok es ->
  Forall (has_fields defaulted_fields) es.
Proof.
  intros H. destruct (load_entries_ok _ _ _ H) as (ds & ->).
  apply Forall_forall. intros e He. apply in_map_iff in He.
  destruct He as (d & <- & _). apply backfill_has_defaulted.
Qed.

(** X3: a list of entries that [load_entries] returned, whatever
    [json.load] read it from, is a fixed point of the store: written
    with [save_entries], to any disk, and loaded again it comes back as
    it is, and back-filling it again changes nothing.  ([well_formed]
    says that no dictionary binds a key twice.) *)
Theorem load_is_stable (json_loads : string -> option json)
    (fs fs' : filesystem) (es : list dict) :
  load_entries json_loads fs = Ok es ->
  Json.well_formed (JArr (map JObj es)) = true ->
  load_entries Json.loads (save_entries Json.dumps es fs') = Ok es
  /\ map backfill es = es.
Proof.
  intros H Hwf. pose proof (loaded_has_defaulted _ _ _ H) as Hall. split.
  - apply save_then_load_defaulted; assumption.
  - apply map_backfill_id. exact Hall.
Qed.

Lemma load_is_stable_witness :
  let es := [backfill [("date", JStr "2024-01-05 (Friday)")]] in
  load_entries Json.loads (save_entries Json.dumps es no_files) = Ok es.
Proof.
  intros es.
  apply (load_is_stable Json.loads
           (only_store
              (Json.dumps (JArr [JObj [("date", JStr "2024-01-05 (Friday)")]])))
           no_files es).
  - vm_compute. reflexivity.
  - reflexivity.
Defined.

(** The list the save button leaves in memory binds no key twice. *)
Lemma save_entry_well_formed json_dumps f entries fs :
  Json.well_formed (JArr (map JObj entries)) = true ->
  Json.well_formed
    (JArr (map JObj (fst (save_entry json_dumps f entries fs)))) = true.
Proof.
  intros Hwf. unfold save_entry.
  assert (Ht : forallb Json.well_formed
                 (map JStr (tags_list (tags_input f))) = true).
  { induction (tags_list (tags_input f)); simpl; auto. }
  cbn [Json.well_formed] in *.
  destruct (uploaded_image f) as [[name bytes]|]; cbv beta iota zeta;
    cbn [fst]; rewrite map_app, forallb_app;
    (apply Bool.andb_true_iff; split; [exact Hwf|]);
    simpl; rewrite Ht; reflexivity.
Qed.

(** The save button on a well-formed list of entries that have the
    defaulted fields: the file then loads to the list the button left in
    memory. *)
Lemma save_entry_reload f entries fs :
  Json.well_formed (JArr (map JObj entries)) = true ->
  Forall (has_fields defaulted_fields) entries ->
  load_entries Json.loads (snd (save_entry Json.dumps f entries fs))
  = Ok (fst (save_entry Json.dumps f entries fs)).
Proof.
  intros Hwf Hall. unfold save_entry.
  assert (Hnew : forall image_path,
             (image_path = JNull \/ exists p, image_path = JStr p) ->
             Json.well_formed
               (JArr (map JObj (entries ++ [new_entry f image_path]))) = true).
  { intros image_path Hi. cbn [Json.well_formed] in *.
    rewrite map_app, forallb_app, Hwf.
    assert (Ht : forallb Json.well_formed
                   (map JStr (tags_list (tags_input f))) = true).
    { induction (tags_list (tags_input f)); simpl; auto. }
    destruct Hi as [->|(p & ->)]; simpl; rewrite Ht; reflexivity. }
  destruct (uploaded_image f) as [[name bytes]|]; cbn [fst snd];
    apply save_then_load_defaulted;
    try (apply Hnew; eauto);
    (apply Forall_app; split; [exact Hall|]);
    repeat constructor; apply has_all_defaulted, new_entry_has_all_fields.
Qed.

(** X4: a run of the script that loaded the list [es], whatever
    [json.load] read it from, and saves an entry leaves a file that
    loads to the list the run has in memory: [es], then the new entry,
    which has all seven fields.  That list again binds no key twice, so
    this goes on for any number of saves. *)
Theorem save_button_then_reload (json_loads : string -> option json)
    (f : form) (fs : filesystem) (es : list dict) :
  load_entries json_loads fs = Ok es ->
  Json.well_formed (JArr (map JObj es)) = true ->
  load_entries Json.loads (snd (save_entry Json.dumps f es fs))
  = Ok (fst (save_entry Json.dumps f es fs))
  /\ Json.well_formed
       (JArr (map JObj (fst (save_entry Json.dumps f es fs)))) = true
  /\ exists entry,
       fst (save_entry Json.dumps f es fs) = es ++ [entry]
       /\ has_all_fields entry
       /\ backfill entry = entry.
Proof.
  intros H Hwf. pose proof (loaded_has_defaulted _ _ _ H) as Hall.
  split; [|split].
  - apply save_entry_reload; assumption.
  - apply save_entry_well_formed. exact Hwf.
  - unfold save_entry.
    destruct (uploaded_image f) as [[name bytes]|]; cbn [fst];
      eexists; (split; [reflexivity|]); split;
      try apply new_entry_has_all_fields;
      apply backfill_id, has_all_defaulted, new_entry_has_all_fields.
Qed.

Lemma save_button_then_reload_witness :
  let f := mkform (mkdate 2024 1 5) Sad "" "me" None "text" "a, b" in
  let fs := only_store "[{}]" in
  load_entries Json.loads (snd (save_entry Json.dumps f [backfill []] fs))
  = Ok (fst (save_entry Json.dumps f [backfill []] fs)).
Proof.
  intros f fs.
  apply (save_button_then_reload Json.loads f fs [backfill []]);
    reflexivity.
Defined.

(** ** More on dates *)

Lemma date_le_trans a b c :
  date_le a b = true -> date_le b c = true -> date_le a c = true.
Proof. rewrite !date_le_spec. lia. Qed.

Lemma new_entry_date f image_path :
  dict_lookup "date" (new_entry f image_path) = Some (JStr (formatted_date f)).
Proof. reflexivity. Qed.

(** X5: the date text the form writes (line 46) is read back by the
    filter (line 171) as the date that was picked, so a saved entry
    passes the date filter exactly for the ranges that hold its date.
    The year has to be 1000 or later: the C library prints earlier
    years with fewer than the four digits [%Y] reads. *)
Theorem formatted_date_parses (f : form) (image_path : json) :
  valid_date (selected_date f) = true -> 1000 <= year (selected_date f) ->
  strptime (formatted_date f) = Some (selected_date f)
  /\ forall start_date end_date,
       date_match start_date end_date (new_entry f image_path)
       = Ok (date_le start_date (selected_date f)
             && date_le (selected_date f) end_date).
Proof.
  intros Hv Hy.
  assert (Hp : strptime (formatted_date f) = Some (selected_date f))
    by (apply strptime_strftime; assumption).
  split; [exact Hp|]. intros s e.
  unfold date_match. rewrite new_entry_date, Hp. reflexivity.
Qed.

Lemma formatted_date_parses_witness :
  let f := mkform (mkdate 2024 2 29) Tired "t" "" None "" "" in
  strptime (formatted_date f) = Some (mkdate 2024 2 29).
Proof.
  intros f. apply (formatted_date_parses f JNull); [reflexivity | simpl; lia].
Defined.

(** ** More on the filter *)

Lemma form_entry_well_formed x : form_entry x -> well_formed_entry x.
Proof.
  intros (f & image_path & -> & Hv & Hy).
  apply new_entry_well_formed; assumption.
Qed.

(** X6: on a list of entries that all come from the save button, the
    filter and the display order never raise, whatever the query and
    the range are. *)
Theorem form_entries_never_raise (q : string) (start_date end_date : date)
    (entries : list dict) :
  Forall form_entry entries ->
  exists kept,
    filtered_entries q start_date end_date entries = Ok kept
    /\ displayed q start_date end_date entries = Ok (rev kept).
Proof.
  intros Hall.
  assert (Ht : exists kept,
             filtered_entries q start_date end_date entries = Ok kept).
  { apply filtered_entries_total. eapply Forall_impl; [|exact Hall].
    intros x Hx. apply well_formed_keep, form_entry_well_formed. exact Hx. }
  destruct Ht as (kept & Hk). exists kept. split; [exact Hk|].
  unfold displayed. rewrite Hk. reflexivity.
Qed.

Lemma form_entries_never_raise_witness :
  exists kept,
    filtered_entries "x" (mkdate 2024 1 1) (mkdate 2024 1 1)
      [entry_on (mkdate 2024 1 5) "Box" "a"] = Ok kept.
Proof.
  destruct (form_entries_never_raise "x" (mkdate 2024 1 1) (mkdate 2024 1 1)
              [entry_on (mkdate 2024 1 5) "Box" "a"]) as (kept & Hk & _).
  - constructor; [|constructor]. eexists; eexists.
    split; [reflexivity|]. split; [reflexivity | simpl; lia].
  - exists kept. exact Hk.
Defined.

Lemma date_match_range s e s' e' x b :
  date_match s e x = Ok b ->
  exists b',
    date_match s' e' x = Ok b'
    /\ (date_le s' s = true -> date_le e e' = true -> b = true -> b' = true)
    /\ (b = true -> date_le s e = true).
Proof.
  unfold date_match.
  destruct (dict_lookup "date" x) as [[| | |text| |]|]; try discriminate.
  destruct (strptime text) as [d|]; [|discriminate].
  intros [= <-]. eexists. split; [reflexivity|]. split.
  - intros Hs He Hb. apply Bool.andb_true_iff in Hb. destruct Hb as (H1 & H2).
    apply Bool.andb_true_iff. split; eapply date_le_trans; eassumption.
  - intros Hb. apply Bool.andb_true_iff in Hb. destruct Hb as (H1 & H2).
    eapply date_le_trans; eassumption.
Qed.

Lemma keep_range q s e s' e' x b :
  keep q s e x = Ok b ->
  exists b',
    keep q s' e' x = Ok b'
    /\ (date_le s' s = true -> date_le e e' = true -> b = true -> b' = true)
    /\ (b = true -> date_le s e = true).
Proof.
  unfold keep. destruct (search_match q x) as [[|]|err]; simpl;
    [| |discriminate].
  - apply date_match_range.
  - intros [= <-]. exists false. repeat split; discriminate.
Qed.

(** X7: widening the date range never hides an entry: with an earlier
    start and a later end the filter still returns, and it keeps every
    entry it kept before. *)
Theorem wider_range_keeps_more (q : string) (s e s' e' : date)
    (entries kept : list dict) :
  date_le s' s = true -> date_le e e' = true ->
  filtered_entries q s e entries = Ok kept ->
  exists kept',
    filtered_entries q s' e' entries = Ok kept' /\ incl kept kept'.
Proof.
  intros Hs He. revert kept.
  induction entries as [|x entries IH]; simpl; intros kept H.
  - injection H as <-. exists []. split; [reflexivity | apply incl_refl].
  - destruct (keep q s e x) as [b|err] eqn:Ek; simpl in H; [|discriminate].
    destruct (filtered_entries q s e entries) as [rest|err]; simpl in H;
      [|discriminate].
    injection H as <-.
    destruct (keep_range q s e s' e' x b Ek) as (b' & Ek' & Hb & _).
    destruct (IH rest eq_refl) as (rest' & Hr & Hincl).
    rewrite Ek', Hr. simpl. eexists. split; [reflexivity|].
    destruct b.
    + rewrite (Hb Hs He eq_refl). apply incl_cons; [left; reflexivity|].
      apply incl_tl. exact Hincl.
    + destruct b'; [apply incl_tl|]; exact Hincl.
Qed.

Lemma wider_range_keeps_more_witness :
  let x := entry_on (mkdate 2024 1 5) "a" "" in
  exists kept',
    filtered_entries "" (mkdate 2023 1 1) (mkdate 2025 1 1) [x] = Ok kept'
    /\ incl [x] kept'.
Proof.
  intros x.
  apply (wider_range_keeps_more "" (mkdate 2024 1 5) (mkdate 2024 1 5)
           (mkdate 2023 1 1) (mkdate 2025 1 1) [x] [x]); reflexivity.
Defined.

(** X8: a range whose start is after its end shows nothing. *)
Theorem inverted_range_keeps_nothing (q : string) (s e : date)
    (entries kept : list dict) :
  date_le s e = false ->
  filtered_entries q s e entries = Ok kept ->
  kept = [].
Proof.
  intros Hse. revert kept.
  induction entries as [|x entries IH]; simpl; intros kept H.
  - injection H as <-. reflexivity.
  - destruct (keep q s e x) as [b|err] eqn:Ek; simpl in H; [|discriminate].
    destruct (filtered_entries q s e entries) as [rest|err]; simpl in H;
      [|discriminate].
    injection H as <-.
    destruct (keep_range q s e s e x b Ek) as (_ & _ & _ & Hb).
    destruct b; [rewrite (Hb eq_refl) in Hse; discriminate|].
    apply IH. reflexivity.
Qed.

Lemma inverted_range_keeps_nothing_witness :
  let entries := [entry_on (mkdate 2024 1 5) "a" ""] in
  filtered_entries "" (mkdate 2024 1 6) (mkdate 2024 1 2) entries = Ok []
  /\ @nil dict = [].
Proof.
  intros entries. split; [reflexivity|].
  apply (inverted_range_keeps_nothing "" (mkdate 2024 1 6)
           (mkdate 2024 1 2) entries []); reflexivity.
Defined.

(** ** More on the search *)

Lemma contains_empty t : PyStr.contains t "" = true.
Proof. apply contains_spec. exists "", t. reflexivity. Qed.

Lemma contains_trans t b a :
  PyStr.contains t b = true -> PyStr.contains b a = true ->
  PyStr.contains t a = true.
Proof.
  rewrite !contains_spec. intros (p & r & ->) (p' & r' & ->).
  exists (p ++ p')%string, (r' ++ r)%string.
  rewrite !append_assoc. reflexivity.
Qed.

(** X9: with the search box empty the search accepts every entry whose
    title is text, whatever its tags are, so that the filter is the date
    filter alone. *)
Theorem empty_query_accepts (x : dict) (t : string)
    (start_date end_date : date) :
  title_is x t ->
  search_match "" x = Ok true
  /\ keep "" start_date end_date x = date_match start_date end_date x.
Proof.
  intros Ht.
  assert (Hs : search_match "" x = Ok true).
  { unfold search_match. unfold title_is in Ht. rewrite Ht. simpl.
    rewrite contains_empty. reflexivity. }
  split; [exact Hs|]. unfold keep. rewrite Hs. reflexivity.
Qed.

Lemma empty_query_accepts_witness :
  search_match "" [("title", JStr "Day"); ("tags", JNull)] = Ok true.
Proof.
  apply (empty_query_accepts [("title", JStr "Day"); ("tags", JNull)] "Day"
           (mkdate 2024 1 1) (mkdate 2024 1 1)).
  reflexivity.
Defined.

Lemma search_match_lower q q' x :
  PyStr.lower q = PyStr.lower q' -> search_match q x = search_match q' x.
Proof. intros H. unfold search_match. rewrite H. reflexivity. Qed.

(** X10: the search sees the query through [str.lower] only: two
    queries with the same lower-case form give the same search result on
    every entry, errors included, and the same filtered list. *)
Theorem query_case_is_ignored (q q' : string) :
  PyStr.lower q = PyStr.lower q' ->
  (forall x, search_match q x = search_match q' x)
  /\ forall start_date end_date entries,
       filtered_entries q start_date end_date entries
       = filtered_entries q' start_date end_date entries.
Proof.
  intros H.
  assert (Hs : forall x, search_match q x = search_match q' x)
    by (intros x; apply search_match_lower; exact H).
  split; [exact Hs|]. intros s e entries.
  induction entries as [|x entries IH]; simpl; [reflexivity|].
  unfold keep. rewrite (Hs x), IH. reflexivity.
Qed.

Lemma query_case_is_ignored_witness :
  search_match "HeALTH" (entry_on (mkdate 2024 1 5) "Gym" "Health")
  = search_match "health" (entry_on (mkdate 2024 1 5) "Gym" "Health").
Proof.
  apply (query_case_is_ignored "HeALTH" "health"). reflexivity.
Defined.

Lemma any_tag_shorter a b tags :
  PyStr.contains b a = true ->
  any_tag b tags = Ok true -> any_tag a tags = Ok true.
Proof.
  intros Hab. induction tags as [|tag tags IH]; simpl; [discriminate|].
  destruct (py_lower tag) as [t|err]; simpl; [|discriminate].
  destruct (PyStr.contains t b) eqn:Eb.
  - intros _. rewrite (contains_trans t b a Eb Hab). reflexivity.
  - intros H. destruct (PyStr.contains t a); [reflexivity | exact (IH H)].
Qed.

(** X11: shortening the query never loses a match: an entry that the
    search accepts for a query is accepted for every query whose
    lower-case form occurs in the lower-case form of that query. *)
Theorem shorter_query_still_matches (q q' : string) (x : dict) :
  PyStr.contains (PyStr.lower q') (PyStr.lower q) = true ->
  search_match q' x = Ok true -> search_match q x = Ok true.
Proof.
  intros Hq. unfold search_match.
  destruct (py_lower (dict_get "title" (JStr "") x)) as [t|err]; simpl;
    [|discriminate].
  destruct (PyStr.contains t (PyStr.lower q')) eqn:Et.
  - intros _. rewrite (contains_trans _ _ _ Et Hq). reflexivity.
  - destruct (PyStr.contains t (PyStr.lower q)); [reflexivity|].
    destruct (py_iter (dict_get "tags" (JArr []) x)) as [tags|err]; simpl;
      [|discriminate].
    apply any_tag_shorter. exact Hq.
Qed.

Lemma shorter_query_still_matches_witness :
  search_match "HEAL" (entry_on (mkdate 2024 1 5) "Gym" "Health") = Ok true.
Proof.
  apply (shorter_query_still_matches "HEAL" "health"); reflexivity.
Defined.

Lemma filtered_all_kept q s e l :
  Forall (fun x => keep q s e x = Ok true) l ->
  filtered_entries q s e l = Ok l.
Proof.
  induction 1 as [|x l Hx _ IH]; simpl; [reflexivity|].
  rewrite Hx, IH. reflexivity.
Qed.

(** X12: filtering is idempotent: the list the filter returns passes the
    same filter unchanged. *)
Theorem filter_is_idempotent (q : string) (start_date end_date : date)
    (entries kept : list dict) :
  filtered_entries q start_date end_date entries = Ok kept ->
  filtered_entries q start_date end_date kept = Ok kept.
Proof.
  intros H. destruct (filtered_entries_ok _ _ _ _ _ H) as (-> & Hall).
  apply filtered_all_kept. apply Forall_forall. intros x Hx.
  apply filter_In in Hx. destruct Hx as (Hin & Hb).
  rewrite Forall_forall in Hall. destruct (Hall x Hin) as (b & Eb).
  rewrite Eb in *. subst b. reflexivity.
Qed.

Lemma filter_is_idempotent_witness :
  let x := entry_on (mkdate 2024 1 5) "a" "" in
  let y := entry_on (mkdate 2024 3 5) "b" "" in
  filtered_entries "" (mkdate 2024 1 1) (mkdate 2024 1 31) [x] = Ok [x].
Proof.
  intros x y.
  apply (filter_is_idempotent "" (mkdate 2024 1 1) (mkdate 2024 1 31)
           [x; y] [x]).
  reflexivity.
Defined.

(** ** More on tags *)

Lemma chars_append a b :
  list_ascii_of_string (a ++ b)
  = list_ascii_of_string a ++ list_ascii_of_string b.
Proof. induction a as [|c a IH]; simpl; [|rewrite IH]; reflexivity. Qed.

Lemma no_comma_strip p : no_comma p -> no_comma (PyStr.strip p).
Proof.
  unfold no_comma. intros Hp Hin.
  destruct (strip_spec p) as ((l & r & E & _) & _).
  apply Hp. rewrite E, !chars_append.
  apply in_or_app. right. apply in_or_app. left. exact Hin.
Qed.

Lemma tags_list_clean tags_input :
  Forall (fun tag => tag <> "" /\ trimmed tag /\ no_comma tag)
         (tags_list tags_input).
Proof.
  unfold tags_list. rewrite map_filter_comm.
  apply Forall_forall. intros tag Hin. apply filter_In in Hin.
  destruct Hin as (Hin & Ht). apply in_map_iff in Hin.
  destruct Hin as (p & <- & Hp). split; [|split].
  - intros E. rewrite E in Ht. discriminate.
  - apply strip_spec.
  - apply no_comma_strip.
    pose proof (split_no_sep "," tags_input) as Hs.
    rewrite Forall_forall in Hs. apply Hs. exact Hp.
Qed.

Lemma occurs_in_join sep p pieces :
  In p pieces -> occurs_in p (PyStr.join sep pieces).
Proof.
  induction pieces as [|a pieces IH]; [contradiction|].
  intros [->|Hin].
  - destruct pieces as [|b pieces].
    + exists "", "". simpl. symmetry. apply append_nil_r.
    + rewrite join_cons by discriminate. exists "". eexists. reflexivity.
  - destruct pieces as [|b pieces]; [contradiction|].
    rewrite join_cons by discriminate.
    destruct (IH Hin) as (pre & post & ->).
    exists (a ++ sep ++ pre)%string, post. rewrite !append_assoc.
    reflexivity.
Qed.

(** X13: every tag the form stores is non-empty, has no white space at
    either end, holds no comma, and is a run of characters of what was
    typed in the tags box. *)
Theorem tags_are_clean (tags_input tag : string) :
  In tag (tags_list tags_input) ->
  tag <> "" /\ trimmed tag /\ no_comma tag /\ occurs_in tag tags_input.
Proof.
  intros Hin.
  pose proof (tags_list_clean tags_input) as Hc.
  rewrite Forall_forall in Hc. destruct (Hc tag Hin) as (Hn & Ht & Hm).
  repeat (split; [assumption|]).
  unfold tags_list in Hin. rewrite map_filter_comm in Hin.
  apply filter_In in Hin. destruct Hin as (Hin & _).
  apply in_map_iff in Hin. destruct Hin as (p & <- & Hp).
  destruct (strip_spec p) as ((l & r & E & _) & _).
  destruct (occurs_in_join "," p _ Hp) as (pre & post & Hj).
  rewrite join_split in Hj.
  exists (pre ++ l)%string, (r ++ post)%string.
  rewrite Hj. rewrite E at 1. rewrite !append_assoc. reflexivity.
Qed.

Lemma tags_are_clean_witness :
  trimmed "Work" /\ occurs_in "Work" "Travel, , Work,Health ".
Proof.
  destruct (tags_are_clean "Travel, , Work,Health " "Work") as (_ & Ht & _ & Ho).
  - simpl. auto.
  - split; assumption.
Defined.

Lemma lstrip_all_space p : all_space p = true -> PyStr.lstrip p = "".
Proof.
  induction p as [|c p IH]; simpl; [reflexivity|].
  intros H. apply Bool.andb_true_iff in H. destruct H as (Hc & Hp).
  rewrite Hc. apply IH. exact Hp.
Qed.

Lemma strip_empty_iff p : PyStr.strip p = "" <-> all_space p = true.
Proof.
  unfold PyStr.strip. split.
  - intros E.
    destruct (lstrip_spec p) as ((l & Hl & Hls) & _).
    destruct (rstrip_spec (PyStr.lstrip p)) as ((r & Hr & Hrs) & _).
    rewrite E in Hr. simpl in Hr.
    rewrite Hl, all_space_append, Hls, Hr, Hrs. reflexivity.
  - intros H. rewrite (lstrip_all_space p H). reflexivity.
Qed.

Lemma all_space_split s :
  forallb all_space (PyStr.split "," s) = blank s.
Proof.
  induction s as [|c s IH]; [reflexivity|].
  cbn [PyStr.split blank]. destruct (Ascii.eqb c ",") eqn:Ec.
  - cbn [forallb all_space]. rewrite IH, Bool.orb_true_r. reflexivity.
  - pose proof (split_not_nil "," s) as Hn.
    destruct (PyStr.split "," s) as [|p ps]; [contradiction|].
    cbn [forallb all_space] in *. rewrite <- IH, Bool.orb_false_r.
    symmetry. apply Bool.andb_assoc.
Qed.

(** X14: the form stores no tag exactly when the tags box holds nothing
    but white space and commas. *)
Theorem no_tags_iff_blank (tags_input : string) :
  tags_list tags_input = [] <-> blank tags_input = true.
Proof.
  rewrite <- all_space_split. unfold tags_list.
  generalize (PyStr.split "," tags_input). intros pieces.
  induction pieces as [|p pieces IH]; simpl; [tauto|].
  destruct (PyStr.strip p) eqn:E; simpl.
  - apply strip_empty_iff in E. rewrite E. exact IH.
  - split; [discriminate|]. intros H.
    apply Bool.andb_true_iff in H. destruct H as (H & _).
    apply strip_empty_iff in H. congruence.
Qed.

Lemma split_app_sep sep p r :
  ~ In sep (list_ascii_of_string p) ->
  PyStr.split sep (p ++ String sep r) = p :: PyStr.split sep r.
Proof.
  induction p as [|c p IH]; intros Hp.
  - simpl. rewrite Ascii.eqb_refl. reflexivity.
  - simpl in Hp. cbn [append PyStr.split].
    destruct (Ascii.eqb_spec c sep) as [->|Hne]; [tauto|].
    rewrite IH by tauto. reflexivity.
Qed.

Lemma split_no_sep_id sep p :
  ~ In sep (list_ascii_of_string p) -> PyStr.split sep p = [p].
Proof.
  induction p as [|c p IH]; intros Hp; [reflexivity|].
  simpl in Hp. cbn [PyStr.split].
  destruct (Ascii.eqb_spec c sep) as [->|Hne]; [tauto|].
  rewrite IH by tauto. reflexivity.
Qed.

(** The pieces of a tags line joined with a comma and a space: the
    first tag, then each other tag behind a space. *)
Lemma split_join_tags t l :
  Forall no_comma (t :: l) ->
  PyStr.split "," (PyStr.join ", " (t :: l)) = t :: map (String " ") l.
Proof.
  revert t. induction l as [|u l IH]; intros t Hall.
  - apply split_no_sep_id. inversion Hall. assumption.
  - inversion Hall as [|? ? Ht Hl]; subst.
    rewrite join_cons by discriminate.
    change (t ++ ", " ++ PyStr.join ", " (u :: l))%string
      with (t ++ String "," (String " " (PyStr.join ", " (u :: l))))%string.
    rewrite split_app_sep by exact Ht.
    cbn [PyStr.split]. change (Ascii.eqb " " ",") with false. cbv iota.
    rewrite (IH u Hl). reflexivity.
Qed.

Lemma lstrip_head t :
  (forall c r, t = String c r -> PyStr.isspace c = false) ->
  PyStr.lstrip t = t.
Proof.
  destruct t as [|c t]; [reflexivity|]. intros H. simpl.
  rewrite (H c t eq_refl). reflexivity.
Qed.

Lemma rstrip_last t :
  (forall r c, t = (r ++ String c "")%string -> PyStr.isspace c = false) ->
  PyStr.rstrip t = t.
Proof.
  induction t as [|a t IH]; [reflexivity|]. intros H. rewrite rstrip_eq.
  destruct t as [|b t].
  - simpl. rewrite (H "" a eq_refl). reflexivity.
  - rewrite IH; [reflexivity|].
    intros r c E. apply (H (String a r) c). rewrite E. reflexivity.
Qed.

Lemma strip_trimmed t : trimmed t -> PyStr.strip t = t.
Proof.
  intros (Hh & Hl). unfold PyStr.strip.
  rewrite (lstrip_head t Hh). apply rstrip_last. exact Hl.
Qed.

Lemma strip_after_space t : PyStr.strip (String " " t) = PyStr.strip t.
Proof. reflexivity. Qed.

Lemma tags_list_join l :
  Forall (fun tag => tag <> "" /\ trimmed tag /\ no_comma tag) l ->
  tags_list (PyStr.join ", " l) = l.
Proof.
  intros Hall. destruct l as [|t l]; [reflexivity|].
  unfold tags_list. rewrite map_filter_comm, split_join_tags.
  2:{ eapply Forall_impl; [|exact Hall]. intros a (_ & _ & Ha). exact Ha. }
  assert (Hm : map PyStr.strip (t :: map (String " ") l) = t :: l).
  { inversion Hall as [|? ? (_ & Ht & _) Hl]; subst.
    cbn [map]. rewrite (strip_trimmed t Ht). f_equal.
    clear Hall Ht. induction Hl as [|u l (_ & Hu & _) _ IH]; [reflexivity|].
    cbn [map]. rewrite strip_after_space, (strip_trimmed u Hu), IH.
    reflexivity. }
  rewrite Hm. clear Hm.
  induction Hall as [|u l' (Hu & _) _ IH]; [reflexivity|].
  simpl. destruct u; [contradiction|]. simpl. rewrite IH. reflexivity.
Qed.

Lemma strings_of_strings l : strings_of (map JStr l) = Ok l.
Proof.
  induction l as [|s l IH]; simpl; [|rewrite IH]; reflexivity.
Qed.

(** X15: the tags line of the detail view and the tags box of the form
    are inverse to each other: for an entry the form saved, the line is
    shown exactly when there are tags, it is the tags joined with a
    comma and a space, and typing it back into the box gives the same
    tags. *)
Theorem tags_line_parses_back (f : form) (image_path : json) :
  let tags := tags_list (tags_input f) in
  tags_line (new_entry f image_path)
  = Ok (match tags with
        | [] => None
        | _ :: _ => Some (PyStr.join ", " tags)
        end)
  /\ tags_list (PyStr.join ", " tags) = tags.
Proof.
  intros tags. split.
  - unfold tags_line. cbn [new_entry dict_lookup String.eqb Ascii.eqb Bool.eqb].
    fold tags. destruct tags as [|t l]; [reflexivity|].
    cbn [py_truthy map py_iter bind].
    change (JStr t :: map JStr l) with (map JStr (t :: l)).
    rewrite strings_of_strings. reflexivity.
  - apply tags_list_join. apply tags_list_clean.
Qed.

(** ** The sidebar buttons *)

(** X16: the sidebar shows an entry the form saved with the emoji of the
    mood that was picked, the one in front of that mood's radio label,
    and never with the fallback emoji; the five moods have different
    names and different emoji. *)
Theorem saved_mood_has_its_icon (f : form) (image_path : json) :
  entry_icon (new_entry f image_path) = Ok (fst (mood_label (selected_mood f)))
  /\ fst (mood_label (selected_mood f)) <> smiling_face
  /\ snd (mood_label (selected_mood f))
     = String " " (fst (mood_options (selected_mood f)))
  /\ forall m m',
       (fst (mood_options m) = fst (mood_options m') -> m = m')
       /\ (fst (mood_label m) = fst (mood_label m') -> m = m').
Proof.
  split; [|split; [|split]].
  - unfold entry_icon. cbn [new_entry dict_lookup String.eqb Ascii.eqb Bool.eqb].
    destruct (selected_mood f); reflexivity.
  - destruct (selected_mood f); discriminate.
  - destruct (selected_mood f); reflexivity.
  - intros m m'. split; destruct m, m'; simpl; intros H;
      try reflexivity; discriminate H.
Qed.

(** X17: [load_entries] gives no default to the mood, so a store that
    it accepts, and whose entries all pass the filter, can stop the
    sidebar at the first statement of its loop with [KeyError]. *)
Theorem sidebar_raises_on_loaded_store :
  (forall d, dict_lookup "mood" d = None ->
             entry_icon (backfill d) = Raise KeyError)
  /\ exists fs x,
       load_entries Json.loads fs = Ok [x]
       /\ displayed "" (mkdate 2024 1 5) (mkdate 2024 1 5) [x] = Ok [x]
       /\ entry_icon x = Raise KeyError.
Proof.
  split.
  - intros d E. unfold entry_icon. rewrite lookup_backfill, E. reflexivity.
  - exists (only_store
              (Json.dumps (JArr [JObj [("date", JStr "2024-01-05 (Friday)")]]))),
           (backfill [("date", JStr "2024-01-05 (Friday)")]).
    split; [vm_compute; reflexivity|]. split; reflexivity.
Qed.

Lemma all_digits_uint u : all_digits (NilEmpty.string_of_uint u) = true.
Proof. induction u; simpl; auto. Qed.

Lemma all_digits_index idx : all_digits (Json.dumps_int (Z.of_nat idx)) = true.
Proof.
  unfold Json.dumps_int. destruct (Z.of_nat idx) as [|p|p] eqn:E;
    [reflexivity | | lia].
  simpl. unfold NilZero.string_of_uint.
  pose proof (all_digits_uint (Pos.to_uint p)) as H.
  destruct (Pos.to_uint p); [reflexivity | exact H..].
Qed.

Lemma dumps_int_inj a b : Json.dumps_int a = Json.dumps_int b -> a = b.
Proof.
  intros H.
  pose proof (JsonFacts.scan_int_dumps a "" eq_refl) as Ha.
  pose proof (JsonFacts.scan_int_dumps b "" eq_refl) as Hb.
  rewrite H, Hb in Ha. injection Ha as ->. reflexivity.
Qed.

Lemma all_digits_dash a b : all_digits (a ++ String "-" b) = false.
Proof.
  induction a as [|c a IH]; simpl; [reflexivity|].
  rewrite IH. apply Bool.andb_false_r.
Qed.

(** A text ending in a hyphen and digits splits in one way only. *)
Lemma dash_digits_inj s1 s2 n1 n2 :
  all_digits n1 = true -> all_digits n2 = true ->
  (s1 ++ String "-" n1)%string = (s2 ++ String "-" n2)%string ->
  s1 = s2 /\ n1 = n2.
Proof.
  intros H1 H2. revert s2.
  induction s1 as [|c s1 IH]; intros [|c' s2] E; simpl in E.
  - injection E as ->. split; reflexivity.
  - injection E as _ E. rewrite E, all_digits_dash in H1. discriminate.
  - injection E as _ E. rewrite <- E, all_digits_dash in H2. discriminate.
  - injection E as -> E. destruct (IH s2 E) as (-> & ->). split; reflexivity.
Qed.

Lemma kept_has_date_text q s e x :
  keep q s e x = Ok true -> exists d, date_text x = Some d.
Proof.
  intros H. apply keep_true in H. destruct H as (_ & H).
  unfold date_match in H. unfold date_text.
  destruct (dict_lookup "date" x) as [[| | |text| |]|]; try discriminate.
  exists text. reflexivity.
Qed.

(** X18: no two buttons of the sidebar get the same key.  Every entry
    the filter keeps has a text date, and the key made of a date and a
    position determines both, so entries at different positions have
    different keys even when their dates are equal. *)
Theorem button_keys_differ (q : string) (start_date end_date : date)
    (entries kept : list dict) :
  filtered_entries q start_date end_date entries = Ok kept ->
  (forall x, In x (rev kept) -> exists d, date_text x = Some d)
  /\ forall d1 d2 i1 i2,
       button_key d1 i1 = button_key d2 i2 -> d1 = d2 /\ i1 = i2.
Proof.
  intros H. split.
  - intros x Hx. apply in_rev in Hx.
    destruct (filtered_entries_ok _ _ _ _ _ H) as (-> & Hall).
    apply filter_In in Hx. destruct Hx as (Hin & Hb).
    rewrite Forall_forall in Hall. destruct (Hall x Hin) as (b & Eb).
    rewrite Eb in Hb. subst b. eapply kept_has_date_text. exact Eb.
  - intros d1 d2 i1 i2 E. unfold button_key in E.
    apply dash_digits_inj in E; try apply all_digits_index.
    destruct E as (-> & E). split; [reflexivity|].
    apply dumps_int_inj in E. lia.
Qed.

Lemma button_keys_differ_witness :
  let x := entry_on (mkdate 2024 1 5) "a" "" in
  exists d, date_text x = Some d.
Proof.
  intros x.
  destruct (button_keys_differ "" (mkdate 2024 1 5) (mkdate 2024 1 5)
              [x; x] [x; x] eq_refl) as (Hd & _).
  apply Hd. simpl. auto.
Defined.

(** ** When the filter raises *)

(** X19: the filter raises exactly when its condition raises on some
    entry, and then with the exception of the first such entry in store
    order; the entries behind it are not looked at. *)
Theorem filtered_entries_raise_iff (q : string) (start_date end_date : date)
    (entries : list dict) (err : exn) :
  filtered_entries q start_date end_date entries = Raise err <->
  exists before x after,
    entries = before ++ x :: after
    /\ Forall (fun y => exists b, keep q start_date end_date y = Ok b) before
    /\ keep q start_date end_date x = Raise err.
Proof.
  split.
  - induction entries as [|x entries IH]; simpl; [discriminate|].
    destruct (keep q start_date end_date x) as [b|e] eqn:Ek; simpl.
    + destruct (filtered_entries q start_date end_date entries)
        as [rest|e] eqn:Er; simpl; [discriminate|].
      intros [= ->]. destruct (IH eq_refl) as (before & y & after & -> & Hb & Hy).
      exists (x :: before), y, after. split; [reflexivity|].
      split; [constructor; eauto | exact Hy].
    + intros [= ->]. exists [], x, entries.
      split; [reflexivity|]. split; [constructor | exact Ek].
  - intros (before & x & after & -> & Hb & Hx).
    apply filtered_entries_raises; assumption.
Qed.

Lemma filtered_entries_raise_iff_witness :
  let good := entry_on (mkdate 2024 1 5) "a" "" in
  filtered_entries "" (mkdate 2024 1 1) (mkdate 2024 1 1)
    [good; [("title", JNull)]; []] = Raise AttributeError.
Proof.
  intros good.
  apply (filtered_entries_raise_iff "" (mkdate 2024 1 1) (mkdate 2024 1 1)
           [good; [("title", JNull)]; []] AttributeError).
  exists [good], [("title", JNull)], [[]].
  split; [reflexivity|]. split; [|reflexivity].
  constructor; [|constructor]. eexists. reflexivity.
Defined.
